(** * Admission-time validation of Mesos domain objects

    A shallow embedding of [src/common/validation.cpp] (namespace
    [mesos::internal::common::validation]) and the properties of its
    validators: identifiers, secrets, environments, command and container
    specifications, volumes and the [gpus] scalar.

    The C++ control flow that the validators rely on ([switch] with case
    labels, [break], early [return], the range-[for] of [foreach] and the
    aborting [UNREACHABLE()] macro) is kept explicit, so that every
    definition below can be read side by side with the function it embeds. *)

From Stdlib Require Import ZArith List Bool Ascii String Lia.
From Stdlib Require Import DecimalString.
From Stdlib Require Import Permutation.
From Stdlib Require Floats.PrimFloat Floats.SpecFloat Floats.FloatOps.
From Stdlib Require Floats.FloatAxioms.
From Stdlib Require Uint63.
Import ListNotations.

Open Scope string_scope.
Open Scope list_scope.

(** ** Control flow *)

(** How a C++ statement completes.  [Abort] is what [UNREACHABLE()] does when
    it is executed (stout's macro calls [abort()]); [Undefined] stands for
    behaviour the language leaves undefined. *)
Inductive completion (R : Type) : Type :=
| Normal
| Break
| Return (r : R)
| Abort
| Undefined.

Arguments Normal {R}.
Arguments Break {R}.
Arguments Return {R} r.
Arguments Abort {R}.
Arguments Undefined {R}.

(** What a call of a function yields to its caller. *)
Inductive outcome (R : Type) : Type :=
| Returned (r : R)
| Aborted
| UndefinedBehaviour.

Arguments Returned {R} r.
Arguments Aborted {R}.
Arguments UndefinedBehaviour {R}.

(** Sequential composition [s1; s2]. *)
Definition seq {R} (s1 s2 : completion R) : completion R :=
  match s1 with
  | Normal => s2
  | c => c
  end.

(** [if (b) { s }] without an [else]. *)
Definition when {R} (b : bool) (s : completion R) : completion R :=
  if b then s else Normal.

Notation "s1 ;; s2" := (seq s1 s2) (at level 61, right associativity).
Notation "'IF' b 'THEN' s" := (when b s) (at level 60, b at level 9).

(** The statements of a [switch] body, in source order: case labels, a
    default label, and ordinary statements. *)
Inductive switch_item (L R : Type) : Type :=
| case (l : L)
| default
| stmt (s : completion R).

Arguments case {L R} l.
Arguments default {L R}.
Arguments stmt {L R} s.

Section Switch.
Context {L R : Type}.
Variable eqb : L -> L -> bool.

(** Execution from some point of the body onwards: labels are no-ops,
    statements run in order until one does not complete normally. *)
Fixpoint run_items (items : list (switch_item L R)) : completion R :=
  match items with
  | [] => Normal
  | case _ :: rest => run_items rest
  | default :: rest => run_items rest
  | stmt s :: rest => s ;; run_items rest
  end.

(** The statements after the label [case v], when the body has one. *)
Fixpoint after_case (v : L) (items : list (switch_item L R))
  : option (list (switch_item L R)) :=
  match items with
  | [] => None
  | case l :: rest => if eqb v l then Some rest else after_case v rest
  | _ :: rest => after_case v rest
  end.

(** The statements after the label [default], when the body has one. *)
Fixpoint after_default (items : list (switch_item L R))
  : option (list (switch_item L R)) :=
  match items with
  | [] => None
  | default :: rest => Some rest
  | _ :: rest => after_default rest
  end.

(** [switch (v) { items }]: control jumps to the matching case label, else
    to the default label, else past the whole body; a [break] leaves the
    switch. *)
Definition switch (v : L) (items : list (switch_item L R)) : completion R :=
  let entered :=
    match after_case v items with
    | Some rest => run_items rest
    | None =>
        match after_default items with
        | Some rest => run_items rest
        | None => Normal
        end
    end in
  match entered with
  | Break => Normal
  | c => c
  end.
End Switch.

(** [foreach (const T& x, xs) { body }] (stout's range-for). *)
Fixpoint foreach {A R} (xs : list A) (body : A -> completion R)
  : completion R :=
  match xs with
  | [] => Normal
  | x :: rest =>
      match body x with
      | Normal => foreach rest body
      | Break => Normal
      | c => c
      end
  end.

(** A function body seen from the caller.  Flowing off the end of a function
    that returns a value is undefined. *)
Definition function {R} (body : completion R) : outcome R :=
  match body with
  | Return r => Returned r
  | Abort => Aborted
  | Normal | Break | Undefined => UndefinedBehaviour
  end.

(** [T x = f(args); rest]: the callee's abort or undefined behaviour is the
    caller's. *)
Definition call {R S} (o : outcome R) (rest : R -> completion S)
  : completion S :=
  match o with
  | Returned r => rest r
  | Aborted => Abort
  | UndefinedBehaviour => Undefined
  end.

(** ** Results *)

(** stout's [Error]. *)
Record Error : Type := mkError { message : string }.

(** stout's [Option<Error>]: [None()] is success. *)
Definition Option_Error : Type := option Error.

Definition isSome {A} (o : option A) : bool :=
  match o with Some _ => true | None => false end.

Definition getOrElse {A} (o : option A) (d : A) : A :=
  match o with Some a => a | None => d end.

(** ** Strings *)

(** [std::any_of(s.begin(), s.end(), p)]. *)
Fixpoint any_of (p : ascii -> bool) (s : string) : bool :=
  match s with
  | EmptyString => false
  | String c rest => p c || any_of p rest
  end.

(** [s.find(c) != string::npos]. *)
Definition contains_char (c : ascii) (s : string) : bool :=
  any_of (Ascii.eqb c) s.

(** [iscntrl] of <cctype> in the "C" locale: the codes 0 to 31 and 127. *)
Definition iscntrl (c : ascii) : bool :=
  (nat_of_ascii c <? 32)%nat || (nat_of_ascii c =? 127)%nat.

(** Modelled from the spec: the path separators of
    [stout/os/constants.hpp], which is not part of the sources at hand; the
    specification names them as POSIX '/' and Windows '\'. *)
Definition POSIX_PATH_SEPARATOR : ascii := "/"%char.
Definition WINDOWS_PATH_SEPARATOR : ascii := "\"%char.

(** stout's [stringify] at an integer: its decimal digits. *)
Definition stringify (n : nat) : string :=
  NilEmpty.string_of_uint (Nat.to_uint n).

(** ** Identifiers *)

Section Identifier.
(** The platform's [NAME_MAX] of <limits.h>. *)
Variable NAME_MAX : nat.

Definition invalidCharacter (c : ascii) : bool :=
  iscntrl c
  || Ascii.eqb c POSIX_PATH_SEPARATOR
  || Ascii.eqb c WINDOWS_PATH_SEPARATOR.

Definition validateID (id : string) : outcome Option_Error :=
  function (
    IF (String.eqb id "") THEN
      Return (Some (mkError "ID must not be empty")) ;;
    IF (NAME_MAX <? String.length id)%nat THEN
      Return (Some (mkError
        ("ID must not be greater than " ++
         stringify NAME_MAX ++ " characters"))) ;;
    IF (String.eqb id "." || String.eqb id "..") THEN
      Return (Some (mkError ("'" ++ id ++ "' is disallowed"))) ;;
    IF (any_of invalidCharacter id) THEN
      Return (Some (mkError ("'" ++ id ++ "' contains invalid characters"))) ;;
    Return None).
End Identifier.

(** The ID messages of [mesos.proto]: one required string each. *)
Record TaskID : Type := mkTaskID { TaskID_value : string }.
Record ExecutorID : Type := mkExecutorID { ExecutorID_value : string }.
Record SlaveID : Type := mkSlaveID { SlaveID_value : string }.
Record FrameworkID : Type := mkFrameworkID { FrameworkID_value : string }.

Definition validateTaskID (NAME_MAX : nat) (taskId : TaskID) :=
  validateID NAME_MAX (TaskID_value taskId).

Definition validateExecutorID (NAME_MAX : nat) (executorId : ExecutorID) :=
  validateID NAME_MAX (ExecutorID_value executorId).

Definition validateSlaveID (NAME_MAX : nat) (slaveId : SlaveID) :=
  validateID NAME_MAX (SlaveID_value slaveId).

Definition validateFrameworkID (NAME_MAX : nat) (frameworkId : FrameworkID) :=
  validateID NAME_MAX (FrameworkID_value frameworkId).

(** ** Secrets *)

(** The protobuf messages are declared in [mesos.proto], outside the sources
    at hand; the records below hold what the generated accessors used by the
    validators return.  An optional field is an [option]; [has_f] tests it
    and the getter [f] yields the default instance when it is absent.  A C++
    enumeration can hold values of its underlying integer type that are not
    among its enumerators: these are the [unlisted] values. *)
Module Secret.

Inductive Type_ : Type :=
| UNKNOWN
| REFERENCE
| VALUE
| unlisted (raw : Z).

Definition Type_eqb (a b : Type_) : bool :=
  match a, b with
  | UNKNOWN, UNKNOWN => true
  | REFERENCE, REFERENCE => true
  | VALUE, VALUE => true
  | unlisted x, unlisted y => Z.eqb x y
  | _, _ => false
  end.

Record Reference : Type := mkReference { name : string; key : option string }.

Record Value : Type := mkValue { data : string }.

Record t : Type := mk {
  type : Type_;
  reference_field : option Reference;
  value_field : option Value
}.

Definition has_reference (s : t) : bool := isSome (reference_field s).
Definition has_value (s : t) : bool := isSome (value_field s).

Definition reference (s : t) : Reference :=
  getOrElse (reference_field s) (mkReference "" None).

Definition value (s : t) : Value :=
  getOrElse (value_field s) (mkValue "").

(** The default instance, returned by the getter of an absent secret. *)
Definition default_instance : t := mk UNKNOWN None None.

End Secret.

Definition validateSecret (secret : Secret.t) : outcome Option_Error :=
  function (
    switch Secret.Type_eqb (Secret.type secret) [
      case Secret.REFERENCE;
        stmt (IF (negb (Secret.has_reference secret)) THEN
          Return (Some (mkError
            "Secret of type REFERENCE must have the 'reference' field set")));
        stmt (IF (Secret.has_value secret) THEN
          Return (Some (mkError
            ("Secret '" ++ Secret.name (Secret.reference secret) ++
             "' of type REFERENCE must not have the 'value' field set"))));
        stmt Break;
      case Secret.VALUE;
        stmt (IF (negb (Secret.has_value secret)) THEN
          Return (Some (mkError
            "Secret of type VALUE must have the 'value' field set")));
        stmt (IF (Secret.has_reference secret) THEN
          Return (Some (mkError
            "Secret of type VALUE must not have the 'reference' field set")));
        stmt Break;
      case Secret.UNKNOWN;
        stmt Break;
      stmt Abort
    ] ;;
    Return None).

(** ** Environments *)

Module Environment.

(** [Environment::Variable]; the trailing underscore keeps the name clear of
    the vernacular keyword, as for [Type_]. *)
Module Variable_.

Inductive Type_ : Type :=
| UNKNOWN
| VALUE
| SECRET
| unlisted (raw : Z).

Definition Type_eqb (a b : Type_) : bool :=
  match a, b with
  | UNKNOWN, UNKNOWN => true
  | VALUE, VALUE => true
  | SECRET, SECRET => true
  | unlisted x, unlisted y => Z.eqb x y
  | _, _ => false
  end.

Record t : Type := mk {
  name : string;
  type : Type_;
  value_field : option string;
  secret_field : option Secret.t
}.

Definition has_value (v : t) : bool := isSome (value_field v).
Definition has_secret (v : t) : bool := isSome (secret_field v).

Definition secret (v : t) : Secret.t :=
  getOrElse (secret_field v) Secret.default_instance.

End Variable_.

Record t : Type := mk { variables : list Variable_.t }.

End Environment.

(** The body of the loop of [validateEnvironment], at one variable. *)
Definition validateEnvironment_body (variable : Environment.Variable_.t)
  : completion Option_Error :=
  let name := Environment.Variable_.name variable in
  switch Environment.Variable_.Type_eqb (Environment.Variable_.type variable) [
    case Environment.Variable_.SECRET;
      stmt (
        IF (negb (Environment.Variable_.has_secret variable)) THEN
          Return (Some (mkError
            ("Environment variable '" ++ name ++
             "' of type 'SECRET' must have a secret set"))) ;;
        IF (Environment.Variable_.has_value variable) THEN
          Return (Some (mkError
            ("Environment variable '" ++ name ++
             "' of type 'SECRET' must not have a value set"))) ;;
        call (validateSecret (Environment.Variable_.secret variable))
          (fun error =>
        match error with
        | Some e =>
            Return (Some (mkError
              ("Environment variable '" ++ name ++ "' specifies an " ++
               "invalid secret: " ++ message e)))
        | None => Normal
        end ;;
        IF (contains_char Ascii.zero
              (Secret.data
                 (Secret.value (Environment.Variable_.secret variable)))) THEN
          Return (Some (mkError
            ("Environment variable '" ++ name ++ "' specifies a " ++
             "secret containing null bytes, which is not allowed in the " ++
             "environment"))) ;;
        Break));
    case Environment.Variable_.VALUE;
      stmt (IF (negb (Environment.Variable_.has_value variable)) THEN
        Return (Some (mkError
          ("Environment variable '" ++ name ++
           "' of type 'VALUE' must have a value set"))));
      stmt (IF (Environment.Variable_.has_secret variable) THEN
        Return (Some (mkError
          ("Environment variable '" ++ name ++
           "' of type 'VALUE' must not have a secret set"))));
      stmt Break;
    case Environment.Variable_.UNKNOWN;
      stmt (Return (Some (mkError
        "Environment variable of type 'UNKNOWN' is not allowed")));
    stmt Abort
  ].

Definition validateEnvironment (environment : Environment.t)
  : outcome Option_Error :=
  function (
    foreach (Environment.variables environment) validateEnvironment_body ;;
    Return None).

(** ** Commands *)

Record CommandInfo : Type := mkCommandInfo {
  CommandInfo_environment : Environment.t
}.

Definition validateCommandInfo (command : CommandInfo)
  : outcome Option_Error :=
  validateEnvironment (CommandInfo_environment command).


(** ** Volumes *)

(** A nested message that the validators only test for presence. *)
Definition Message : Type := string.

Module Volume.

Module Source.

Inductive Type_ : Type :=
| UNKNOWN
| DOCKER_VOLUME
| HOST_PATH
| SANDBOX_PATH
| SECRET
| unlisted (raw : Z).

Definition Type_eqb (a b : Type_) : bool :=
  match a, b with
  | UNKNOWN, UNKNOWN => true
  | DOCKER_VOLUME, DOCKER_VOLUME => true
  | HOST_PATH, HOST_PATH => true
  | SANDBOX_PATH, SANDBOX_PATH => true
  | SECRET, SECRET => true
  | unlisted x, unlisted y => Z.eqb x y
  | _, _ => false
  end.

Record t : Type := mk {
  type : Type_;
  docker_volume : option Message;
  host_path : option Message;
  sandbox_path : option Message;
  secret : option Secret.t
}.

Definition has_docker_volume (s : t) : bool := isSome (docker_volume s).
Definition has_host_path (s : t) : bool := isSome (host_path s).
Definition has_sandbox_path (s : t) : bool := isSome (sandbox_path s).
Definition has_secret (s : t) : bool := isSome (secret s).

Definition default_instance : t := mk UNKNOWN None None None None.

End Source.

Record t : Type := mk {
  container_path : string;
  host_path : option string;
  image : option Message;
  source_field : option Source.t
}.

Definition has_host_path (v : t) : bool := isSome (host_path v).
Definition has_image (v : t) : bool := isSome (image v).
Definition has_source (v : t) : bool := isSome (source_field v).

Definition source (v : t) : Source.t :=
  getOrElse (source_field v) Source.default_instance.

End Volume.

(** The [int count] of [validateVolume] after its three increments. *)
Definition validateVolume_count (volume : Volume.t) : Z :=
  let count := 0%Z in
  let count := if Volume.has_host_path volume then (count + 1)%Z else count in
  let count := if Volume.has_image volume then (count + 1)%Z else count in
  let count := if Volume.has_source volume then (count + 1)%Z else count in
  count.

Definition validateVolume (volume : Volume.t) : outcome Option_Error :=
  function (
    IF (negb (validateVolume_count volume =? 1)%Z) THEN
      Return (Some (mkError
        ("Only one of them should be set: " ++
         "'host_path', 'image' and 'source'"))) ;;
    IF (Volume.has_source volume) THEN
      switch Volume.Source.Type_eqb
        (Volume.Source.type (Volume.source volume)) [
        case Volume.Source.DOCKER_VOLUME;
          stmt (IF (negb (Volume.Source.has_docker_volume
                            (Volume.source volume))) THEN
            Return (Some (mkError
              "'source.docker_volume' is not set for DOCKER_VOLUME volume")));
          stmt Break;
        case Volume.Source.HOST_PATH;
          stmt (IF (negb (Volume.Source.has_host_path
                            (Volume.source volume))) THEN
            Return (Some (mkError
              "'source.host_path' is not set for HOST_PATH volume")));
          stmt Break;
        case Volume.Source.SANDBOX_PATH;
          stmt (IF (negb (Volume.Source.has_sandbox_path
                            (Volume.source volume))) THEN
            Return (Some (mkError
              "'source.sandbox_path' is not set for SANDBOX_PATH volume")));
          stmt Break;
        case Volume.Source.SECRET;
          stmt (IF (negb (Volume.Source.has_secret
                            (Volume.source volume))) THEN
            Return (Some (mkError
              "'source.secret' is not set for SECRET volume")));
          stmt Break;
        default;
          stmt (Return (Some (mkError "'source.type' is unknown")))
      ] ;;
    Return None).

(** ** Containers *)

Record ContainerInfo : Type := mkContainerInfo {
  volumes : list Volume.t
}.

(** The body of the loop of [validateContainerInfo], at one volume. *)
Definition validateContainerInfo_body (volume : Volume.t)
  : completion Option_Error :=
  call (validateVolume volume) (fun error =>
    match error with
    | Some e => Return (Some (mkError ("Invalid volume: " ++ message e)))
    | None => Normal
    end).

Definition validateContainerInfo (containerInfo : ContainerInfo)
  : outcome Option_Error :=
  function (
    foreach (volumes containerInfo) validateContainerInfo_body ;;
    Return None).

(** ** The gpus scalar *)

(** The integer part of a binary64 value, rounding towards zero; infinities
    and NaN have none. *)
Definition truncate (d : PrimFloat.float) : option Z :=
  match FloatOps.Prim2SF d with
  | SpecFloat.S754_zero _ => Some 0%Z
  | SpecFloat.S754_finite s m e =>
      let magnitude :=
        match e with
        | Zneg p => Z.shiftr (Zpos m) (Zpos p)
        | _ => Z.shiftl (Zpos m) e
        end in
      Some (if s then (- magnitude)%Z else magnitude)
  | SpecFloat.S754_infinity _ => None
  | SpecFloat.S754_nan => None
  end.

Definition LLONG_MIN : Z := (- 2 ^ 63)%Z.
Definition LLONG_MAX : Z := (2 ^ 63 - 1)%Z.

(** [static_cast<long long>(d)]: the truncated value when a 64-bit
    [long long] can hold it; otherwise the conversion is undefined. *)
Definition static_cast_long_long (d : PrimFloat.float) : option Z :=
  match truncate d with
  | Some z => if ((LLONG_MIN <=? z) && (z <=? LLONG_MAX))%Z then Some z else None
  | None => None
  end.

Section Gpus.
Import Corelib.Floats.PrimFloat.

(** [Resource] and the class [Resources] live in [mesos/resources.hpp],
    outside the sources at hand; [Resources_gpus resources] is what
    [Resources(resources).gpus()] yields, an [Option<double>]. *)
Variable Resource : Type.
Variable Resources_gpus : list Resource -> option PrimFloat.float.

Definition validateGpus (resources : list Resource) : outcome Option_Error :=
  let gpus := getOrElse (Resources_gpus resources) 0%float in
  function (
    match static_cast_long_long (PrimFloat.mul gpus 1000%float) with
    | Some n =>
        IF (negb (Z.rem n 1000 =? 0)%Z) THEN
          Return (Some (mkError
            "The 'gpus' resource must be an unsigned integer"))
    | None => Undefined
    end ;;
    Return None).
End Gpus.

(** * The rule sets of the specification

    The specification describes every validator as an ordered list of rules,
    the first violated one producing the reported error.  The definitions of
    this part follow those words; the theorems further down compare them with
    the code above. *)

(** A rule inspects an entity and reports an error when it is violated. *)
Definition rule (A : Type) : Type := A -> option Error.

Definition violated_when (b : bool) (e : Error) : option Error :=
  if b then Some e else None.

(** The error of the first violated rule, in list order. *)
Fixpoint first_violated {A} (rules : list (rule A)) (x : A) : option Error :=
  match rules with
  | [] => None
  | r :: rest =>
      match r x with
      | Some e => Some e
      | None => first_violated rest x
      end
  end.

(** The first failure over a sequence of entities, in sequence order. *)
Fixpoint first_failure {A} (check : A -> option Error) (xs : list A)
  : option Error :=
  match xs with
  | [] => None
  | x :: rest =>
      match check x with
      | Some e => Some e
      | None => first_failure check rest
      end
  end.

(** Identifier: empty, then length, then reserved value, then characters. *)
Definition ID_rules (NAME_MAX : nat) : list (rule string) := [
  (fun id => violated_when (String.eqb id "")
     (mkError "ID must not be empty"));
  (fun id => violated_when (NAME_MAX <? String.length id)%nat
     (mkError ("ID must not be greater than " ++
               stringify NAME_MAX ++ " characters")));
  (fun id => violated_when (String.eqb id "." || String.eqb id "..")
     (mkError ("'" ++ id ++ "' is disallowed")));
  (fun id => violated_when (any_of invalidCharacter id)
     (mkError ("'" ++ id ++ "' contains invalid characters")))
].

(** Secret: per discriminator, the required payload and then the forbidden
    one; nothing is required of [UNKNOWN]. *)
Definition Secret_rules (ty : Secret.Type_) : list (rule Secret.t) :=
  match ty with
  | Secret.REFERENCE => [
      (fun s => violated_when (negb (Secret.has_reference s))
         (mkError
            "Secret of type REFERENCE must have the 'reference' field set"));
      (fun s => violated_when (Secret.has_value s)
         (mkError
            ("Secret '" ++ Secret.name (Secret.reference s) ++
             "' of type REFERENCE must not have the 'value' field set")))
    ]
  | Secret.VALUE => [
      (fun s => violated_when (negb (Secret.has_value s))
         (mkError "Secret of type VALUE must have the 'value' field set"));
      (fun s => violated_when (Secret.has_reference s)
         (mkError
            "Secret of type VALUE must not have the 'reference' field set"))
    ]
  | _ => []
  end.

Definition check_Secret (s : Secret.t) : option Error :=
  first_violated (Secret_rules (Secret.type s)) s.

(** Environment variable: per discriminator. *)
Definition Variable_rules (ty : Environment.Variable_.Type_)
  : list (rule Environment.Variable_.t) :=
  match ty with
  | Environment.Variable_.SECRET => [
      (fun v => violated_when (negb (Environment.Variable_.has_secret v))
         (mkError ("Environment variable '" ++ Environment.Variable_.name v ++
                   "' of type 'SECRET' must have a secret set")));
      (fun v => violated_when (Environment.Variable_.has_value v)
         (mkError ("Environment variable '" ++ Environment.Variable_.name v ++
                   "' of type 'SECRET' must not have a value set")));
      (fun v =>
         match check_Secret (Environment.Variable_.secret v) with
         | Some e =>
             Some (mkError
               ("Environment variable '" ++ Environment.Variable_.name v ++
                "' specifies an " ++ "invalid secret: " ++ message e))
         | None => None
         end);
      (fun v => violated_when
         (contains_char Ascii.zero
            (Secret.data (Secret.value (Environment.Variable_.secret v))))
         (mkError ("Environment variable '" ++ Environment.Variable_.name v ++
                   "' specifies a " ++
                   "secret containing null bytes, which is not allowed in the " ++
                   "environment")))
    ]
  | Environment.Variable_.VALUE => [
      (fun v => violated_when (negb (Environment.Variable_.has_value v))
         (mkError ("Environment variable '" ++ Environment.Variable_.name v ++
                   "' of type 'VALUE' must have a value set")));
      (fun v => violated_when (Environment.Variable_.has_secret v)
         (mkError ("Environment variable '" ++ Environment.Variable_.name v ++
                   "' of type 'VALUE' must not have a secret set")))
    ]
  | Environment.Variable_.UNKNOWN => [
      (fun _ => Some (mkError
         "Environment variable of type 'UNKNOWN' is not allowed"))
    ]
  | Environment.Variable_.unlisted _ => []
  end.

Definition check_Variable (v : Environment.Variable_.t) : option Error :=
  first_violated (Variable_rules (Environment.Variable_.type v)) v.

(** Volume: exactly one top-level slot, then the payload of the source. *)
Definition source_payload_error (s : Volume.Source.t) : option Error :=
  match Volume.Source.type s with
  | Volume.Source.DOCKER_VOLUME =>
      violated_when (negb (Volume.Source.has_docker_volume s))
        (mkError "'source.docker_volume' is not set for DOCKER_VOLUME volume")
  | Volume.Source.HOST_PATH =>
      violated_when (negb (Volume.Source.has_host_path s))
        (mkError "'source.host_path' is not set for HOST_PATH volume")
  | Volume.Source.SANDBOX_PATH =>
      violated_when (negb (Volume.Source.has_sandbox_path s))
        (mkError "'source.sandbox_path' is not set for SANDBOX_PATH volume")
  | Volume.Source.SECRET =>
      violated_when (negb (Volume.Source.has_secret s))
        (mkError "'source.secret' is not set for SECRET volume")
  | _ => Some (mkError "'source.type' is unknown")
  end.

(** The number of populated slots among host_path, image and source. *)
Definition populated_slots (v : Volume.t) : nat :=
  List.length (List.filter (fun b : bool => b)
    [Volume.has_host_path v; Volume.has_image v; Volume.has_source v]).

Definition Volume_rules : list (rule Volume.t) := [
  (fun v => violated_when (negb (populated_slots v =? 1)%nat)
     (mkError ("Only one of them should be set: " ++
               "'host_path', 'image' and 'source'")));
  (fun v =>
     match Volume.source_field v with
     | Some s => source_payload_error s
     | None => None
     end)
].

Definition check_Volume (v : Volume.t) : option Error :=
  first_violated Volume_rules v.

(** Container: the volume's failure, wrapped. *)
Definition wrap_invalid_volume (o : option Error) : option Error :=
  match o with
  | Some e => Some (mkError ("Invalid volume: " ++ message e))
  | None => None
  end.

Section FixedPoint.
Import Corelib.Floats.PrimFloat.

(** The accelerator count in thousandths: the value scaled by 1000 and cut
    to a 64-bit integer. *)
Definition fixed_point_3 (d : float) : option Z :=
  static_cast_long_long (d * 1000)%float.
End FixedPoint.

(** What a number of thousandths has beyond whole units. *)
Definition fractional_remainder (n : Z) : Z :=
  (n - 1000 * Z.quot n 1000)%Z.

Definition gpus_error : Error :=
  mkError "The 'gpus' resource must be an unsigned integer".

(** A verdict read as the completion of a loop body or of a rule check. *)
Definition verdict (o : option Error) : completion Option_Error :=
  match o with
  | Some e => Return (Some e)
  | None => Normal
  end.

(** Whether the payload that the discriminator of a source announces is
    present; no payload matches a discriminator outside the four kinds. *)
Definition matching_payload_present (s : Volume.Source.t) : bool :=
  match Volume.Source.type s with
  | Volume.Source.DOCKER_VOLUME => Volume.Source.has_docker_volume s
  | Volume.Source.HOST_PATH => Volume.Source.has_host_path s
  | Volume.Source.SANDBOX_PATH => Volume.Source.has_sandbox_path s
  | Volume.Source.SECRET => Volume.Source.has_secret s
  | _ => false
  end.

(** The position of the first volume of a sequence that [validateVolume]
    does not accept. *)
Fixpoint first_invalid (vs : list Volume.t) : option nat :=
  match vs with
  | [] => None
  | v :: rest =>
      match validateVolume v with
      | Returned None => option_map S (first_invalid rest)
      | _ => Some 0%nat
      end
  end.

(** ** Sample entities *)

Definition host_path_volume : Volume.t :=
  Volume.mk "/mnt/data" (Some "/var/data") None None.

(** A volume with none of host_path, image and source. *)
Definition empty_volume (container_path : string) : Volume.t :=
  Volume.mk container_path None None None.

Definition only_one_error : Error :=
  mkError "Only one of them should be set: 'host_path', 'image' and 'source'".

Definition reference_secret : Secret.t :=
  Secret.mk Secret.REFERENCE (Some (Secret.mkReference "vault/token" None))
    None.

Definition value_secret (data : string) : Secret.t :=
  Secret.mk Secret.VALUE None (Some (Secret.mkValue data)).

(** A SECRET variable that carries a valid REFERENCE secret and, besides, a
    literal value. *)
Definition token_with_literal : Environment.Variable_.t :=
  Environment.Variable_.mk "TOKEN" Environment.Variable_.SECRET
    (Some "plain") (Some reference_secret).

Definition home_variable : Environment.Variable_.t :=
  Environment.Variable_.mk "HOME" Environment.Variable_.VALUE
    (Some "/root") None.


Section Scalars.
Import Corelib.Floats.PrimFloat.

(** The binary64 value of an integer below 2^63 in magnitude. *)
Definition of_Z (k : Z) : float :=
  match k with
  | Z0 => 0%float
  | Zpos _ => of_uint63 (Uint63Axioms.of_Z k)
  | Zneg p => (- of_uint63 (Uint63Axioms.of_Z (Zpos p)))%float
  end.

(** Modelled from the spec: the scalars of the resource model, which is not
    part of the sources at hand.  A scalar has 3 decimal digits: it is the
    binary64 value nearest to [k]/1000 for an integer number [k] of
    thousandths, its value at 3-decimal fixed-point precision. *)
Definition three_decimal (k : Z) : float := (of_Z k / 1000)%float.

(** Whether [validateGpus] returns success on resources whose gpus scalar
    is [d]. *)
Definition accepts_gpus (d : float) : bool :=
  match validateGpus unit (fun _ => Some d) [] with
  | Returned None => true
  | _ => false
  end.
End Scalars.

Section ScalarValues.
Import Corelib.Floats.PrimFloat.
#[local] Open Scope Z_scope.


(** The integer that a binary64 value equals, when it is a whole number:
    m * 2^e for e >= 0, and m / 2^(-e) for e < 0 when the division is
    exact. *)
Definition whole_value (d : float) : option Z :=
  match FloatOps.Prim2SF d with
  | SpecFloat.S754_zero _ => Some 0
  | SpecFloat.S754_finite s m e =>
      match e with
      | Zneg p =>
          if (Zpos m mod 2 ^ Zpos p =? 0)
          then Some (if s then - (Zpos m / 2 ^ Zpos p) else Zpos m / 2 ^ Zpos p)
          else None
      | _ => Some (if s then - (Zpos m * 2 ^ e) else Zpos m * 2 ^ e)
      end
  | _ => None
  end.
End ScalarValues.

(** The [n] integers from [lo] upwards. *)
Fixpoint range (lo : Z) (n : nat) : list Z :=
  match n with
  | O => []
  | S m => lo :: range (lo + 1) m
  end.

Section SampleResources.
Import Corelib.Floats.PrimFloat.

(** A stand-in for the resource model, to run [validateGpus] on: resources
    as (name, scalar) pairs, the scalar of the first entry named gpus. *)
Definition sample_gpus (resources : list (string * float)) : option float :=
  match List.find (fun r => String.eqb (fst r) "gpus") resources with
  | Some r => Some (snd r)
  | None => None
  end.
End SampleResources.

(** ** What the volume validator reads *)

(** The presence of the payloads of a source, next to its discriminator. *)
Record Source_shape : Type := mkSource_shape {
  shape_type : Volume.Source.Type_;
  shape_docker_volume : bool;
  shape_source_host_path : bool;
  shape_sandbox_path : bool;
  shape_secret : bool
}.

(** Which slots of a volume are populated and, for the source, its
    discriminator and which of its payloads are present: no content. *)
Record Volume_shape : Type := mkVolume_shape {
  shape_host_path : bool;
  shape_image : bool;
  shape_source : option Source_shape
}.

Definition source_shape_of (s : Volume.Source.t) : Source_shape :=
  mkSource_shape (Volume.Source.type s)
    (Volume.Source.has_docker_volume s) (Volume.Source.has_host_path s)
    (Volume.Source.has_sandbox_path s) (Volume.Source.has_secret s).

Definition shape_of (v : Volume.t) : Volume_shape :=
  mkVolume_shape (Volume.has_host_path v) (Volume.has_image v)
    (option_map source_shape_of (Volume.source_field v)).

(** The messages of the errors that [validateVolume] constructs. *)
Definition Volume_error_messages : list string := [
  "Only one of them should be set: 'host_path', 'image' and 'source'";
  "'source.docker_volume' is not set for DOCKER_VOLUME volume";
  "'source.host_path' is not set for HOST_PATH volume";
  "'source.sandbox_path' is not set for SANDBOX_PATH volume";
  "'source.secret' is not set for SECRET volume";
  "'source.type' is unknown"
].

(** A REFERENCE secret without its reference, and with a value that holds a
    null byte: [validateSecret] rejects it. *)
Definition broken_secret : Secret.t :=
  Secret.mk Secret.REFERENCE None
    (Some (Secret.mkValue (String Ascii.zero "x"))).

(** Splits a goal that is a conjunction into its conjuncts, and nothing
    else. *)
Ltac split_conjunctions :=
  repeat match goal with |- _ /\ _ => split end.

(** * The code against the rule sets *)

(** ** Control-flow lemmas *)

(** A [switch] whose body has neither a label for the value nor a default
    label executes none of its statements. *)
Lemma switch_no_label {L R} (eqb : L -> L -> bool) (v : L)
    (items : list (switch_item L R)) :
  after_case eqb v items = None ->
  after_default items = None ->
  switch eqb v items = Normal.
Proof.
  intros Hcase Hdefault. unfold switch. rewrite Hcase, Hdefault. reflexivity.
Qed.

(** What follows a [break] or a [return] in a [switch] body is not executed
    on the way from a label. *)
Lemma run_items_after_break {L R} (rest : list (switch_item L R)) :
  run_items (stmt Break :: rest) = Break.
Proof. reflexivity. Qed.

Lemma run_items_after_return {L R} (r : R) (rest : list (switch_item L R)) :
  run_items (stmt (Return r) :: rest) = Return r.
Proof. reflexivity. Qed.

Lemma Returned_None_iff {R} (o : option R) :
  Returned o = Returned None <-> o = None.
Proof. split; [intros H; injection H as H; exact H | intros ->; reflexivity]. Qed.

Lemma foreach_first_failure {A} (check : A -> option Error)
    (body : A -> completion Option_Error) :
  (forall x, body x = verdict (check x)) ->
  forall xs, foreach xs body = verdict (first_failure check xs).
Proof.
  intros Hbody xs.
  induction xs as [|x rest IH]; simpl.
  - reflexivity.
  - rewrite Hbody. destruct (check x) as [e|]; simpl.
    + reflexivity.
    + exact IH.
Qed.

Lemma function_verdict (o : option Error) :
  function (verdict o ;; Return None) = Returned o.
Proof. destruct o; reflexivity. Qed.

Lemma first_failure_app {A} (check : A -> option Error) (xs ys : list A) :
  first_failure check (xs ++ ys) =
  match first_failure check xs with
  | Some e => Some e
  | None => first_failure check ys
  end.
Proof.
  induction xs as [|x xs IH]; simpl.
  - reflexivity.
  - destruct (check x); [reflexivity | exact IH].
Qed.

Lemma first_failure_None {A} (check : A -> option Error) (xs : list A) :
  first_failure check xs = None <-> Forall (fun x => check x = None) xs.
Proof.
  induction xs as [|x xs IH]; simpl.
  - split; [constructor | reflexivity].
  - destruct (check x) as [e|] eqn:Hx.
    + split; [discriminate | intros H; inversion H; congruence].
    + rewrite IH. split.
      * intros H. constructor; assumption.
      * intros H. inversion H; assumption.
Qed.

(** ** Each validator returns the first violated rule *)

Lemma validateID_refines (NAME_MAX : nat) (id : string) :
  validateID NAME_MAX id = Returned (first_violated (ID_rules NAME_MAX) id).
Proof.
  unfold validateID, ID_rules, first_violated, violated_when.
  destruct (String.eqb id ""); [reflexivity|].
  destruct (NAME_MAX <? String.length id)%nat; [reflexivity|].
  destruct (String.eqb id "." || String.eqb id ".."); [reflexivity|].
  destruct (any_of invalidCharacter id); reflexivity.
Qed.

Lemma validateSecret_refines (s : Secret.t) :
  validateSecret s = Returned (check_Secret s).
Proof.
  destruct s as [ty [r|] [v|]]; destruct ty; reflexivity.
Qed.

Lemma validateEnvironment_body_refines (v : Environment.Variable_.t) :
  validateEnvironment_body v = verdict (check_Variable v).
Proof.
  destruct v as [name ty value secret].
  destruct ty as [| | |raw].
  - reflexivity.
  - destruct value, secret; reflexivity.
  - unfold validateEnvironment_body, check_Variable, switch.
    cbn [Environment.Variable_.type Environment.Variable_.Type_eqb
         after_case run_items Variable_rules first_violated].
    unfold violated_when.
    destruct (Environment.Variable_.has_secret _); [|reflexivity].
    destruct (Environment.Variable_.has_value _); [reflexivity|].
    cbn [negb when seq].
    rewrite validateSecret_refines. cbn [call].
    destruct (check_Secret _); [reflexivity|].
    destruct (contains_char _ _); reflexivity.
  - reflexivity.
Qed.

Lemma validateEnvironment_refines (environment : Environment.t) :
  validateEnvironment environment =
  Returned (first_failure check_Variable (Environment.variables environment)).
Proof.
  unfold validateEnvironment.
  rewrite (foreach_first_failure check_Variable);
    [apply function_verdict | apply validateEnvironment_body_refines].
Qed.

Lemma validateVolume_count_populated (v : Volume.t) :
  validateVolume_count v = Z.of_nat (populated_slots v).
Proof.
  unfold validateVolume_count, populated_slots.
  destruct (Volume.has_host_path v), (Volume.has_image v),
    (Volume.has_source v); reflexivity.
Qed.

Lemma validateVolume_source_switch (s : Volume.Source.t) :
  switch Volume.Source.Type_eqb (Volume.Source.type s) [
    case Volume.Source.DOCKER_VOLUME;
      stmt (IF (negb (Volume.Source.has_docker_volume s)) THEN
        Return (Some (mkError
          "'source.docker_volume' is not set for DOCKER_VOLUME volume")));
      stmt Break;
    case Volume.Source.HOST_PATH;
      stmt (IF (negb (Volume.Source.has_host_path s)) THEN
        Return (Some (mkError
          "'source.host_path' is not set for HOST_PATH volume")));
      stmt Break;
    case Volume.Source.SANDBOX_PATH;
      stmt (IF (negb (Volume.Source.has_sandbox_path s)) THEN
        Return (Some (mkError
          "'source.sandbox_path' is not set for SANDBOX_PATH volume")));
      stmt Break;
    case Volume.Source.SECRET;
      stmt (IF (negb (Volume.Source.has_secret s)) THEN
        Return (Some (mkError
          "'source.secret' is not set for SECRET volume")));
      stmt Break;
    default;
      stmt (Return (Some (mkError "'source.type' is unknown")))
  ] = verdict (source_payload_error s).
Proof.
  unfold source_payload_error.
  destruct (Volume.Source.type s); cbv [switch after_case after_default
    run_items Volume.Source.Type_eqb seq violated_when].
  - reflexivity.
  - destruct (Volume.Source.has_docker_volume s); reflexivity.
  - destruct (Volume.Source.has_host_path s); reflexivity.
  - destruct (Volume.Source.has_sandbox_path s); reflexivity.
  - destruct (Volume.Source.has_secret s); reflexivity.
  - reflexivity.
Qed.

Lemma validateVolume_refines (volume : Volume.t) :
  validateVolume volume = Returned (check_Volume volume).
Proof.
  unfold validateVolume, check_Volume, Volume_rules, first_violated.
  rewrite validateVolume_source_switch, validateVolume_count_populated.
  replace (Z.of_nat (populated_slots volume) =? 1)%Z
    with (populated_slots volume =? 1)%nat.
  2:{ destruct (Nat.eqb_spec (populated_slots volume) 1) as [E|E];
      symmetry; [apply Z.eqb_eq | apply Z.eqb_neq]; lia. }
  unfold violated_when, Volume.has_source, Volume.source.
  destruct (populated_slots volume =? 1)%nat; [|reflexivity].
  destruct (Volume.source_field volume) as [s|]; [|reflexivity].
  cbn [negb when seq isSome getOrElse].
  destruct (source_payload_error s); reflexivity.
Qed.

Lemma validateContainerInfo_body_refines (volume : Volume.t) :
  validateContainerInfo_body volume =
  verdict (wrap_invalid_volume (check_Volume volume)).
Proof.
  unfold validateContainerInfo_body.
  rewrite validateVolume_refines.
  destruct (check_Volume volume); reflexivity.
Qed.

Lemma validateContainerInfo_refines (containerInfo : ContainerInfo) :
  validateContainerInfo containerInfo =
  Returned (first_failure (fun v => wrap_invalid_volume (check_Volume v))
              (volumes containerInfo)).
Proof.
  unfold validateContainerInfo.
  rewrite (foreach_first_failure
             (fun v => wrap_invalid_volume (check_Volume v)));
    [apply function_verdict | apply validateContainerInfo_body_refines].
Qed.

Lemma rem_fractional_remainder (n : Z) :
  Z.rem n 1000 = fractional_remainder n.
Proof.
  unfold fractional_remainder.
  pose proof (Z.quot_rem' n 1000). lia.
Qed.

Section GpusRefinement.
Import Corelib.Floats.PrimFloat.
Variable Resource : Type.
Variable Resources_gpus : list Resource -> option float.

Lemma validateGpus_refines (resources : list Resource) :
  validateGpus Resource Resources_gpus resources =
  match fixed_point_3 (getOrElse (Resources_gpus resources) 0%float) with
  | Some n =>
      Returned (violated_when (negb (fractional_remainder n =? 0)%Z) gpus_error)
  | None => UndefinedBehaviour
  end.
Proof.
  unfold validateGpus, fixed_point_3.
  destruct (static_cast_long_long _) as [n|]; [|reflexivity].
  rewrite rem_fractional_remainder.
  destruct (fractional_remainder n =? 0)%Z; reflexivity.
Qed.
End GpusRefinement.

(** ** Strings and characters *)

Lemma any_of_In (p : ascii -> bool) (s : string) :
  any_of p s = true <->
  exists c, In c (list_ascii_of_string s) /\ p c = true.
Proof.
  induction s as [|a s IH]; simpl.
  - split; [discriminate | intros [c [[] _]]].
  - rewrite orb_true_iff, IH. split.
    + intros [Ha | [c [Hin Hc]]].
      * exists a. split; [left; reflexivity | exact Ha].
      * exists c. split; [right; exact Hin | exact Hc].
    + intros [c [[Heq | Hin] Hc]].
      * left. subst a. exact Hc.
      * right. exists c. split; assumption.
Qed.

Lemma any_of_false (p : ascii -> bool) (s : string) :
  any_of p s = false <->
  forall c, In c (list_ascii_of_string s) -> p c = false.
Proof.
  split.
  - intros H c Hin. destruct (p c) eqn:Hc; [|reflexivity].
    assert (any_of p s = true) by (apply any_of_In; exists c; auto).
    congruence.
  - intros H. destruct (any_of p s) eqn:E; [|reflexivity].
    apply any_of_In in E. destruct E as [c [Hin Hc]].
    rewrite (H c Hin) in Hc. discriminate.
Qed.

Lemma contains_char_In (c : ascii) (s : string) :
  contains_char c s = true <-> In c (list_ascii_of_string s).
Proof.
  unfold contains_char. rewrite any_of_In. split.
  - intros [d [Hin Hd]]. apply Ascii.eqb_eq in Hd. subst d. exact Hin.
  - intros Hin. exists c. split; [exact Hin | apply Ascii.eqb_refl].
Qed.

Lemma contains_char_false (c : ascii) (s : string) :
  contains_char c s = false <-> ~ In c (list_ascii_of_string s).
Proof.
  rewrite <- contains_char_In.
  destruct (contains_char c s); split; congruence.
Qed.

Lemma invalidCharacter_false (c : ascii) :
  invalidCharacter c = false <->
  iscntrl c = false /\ c <> "/"%char /\ c <> "\"%char.
Proof.
  unfold invalidCharacter, POSIX_PATH_SEPARATOR, WINDOWS_PATH_SEPARATOR.
  rewrite !orb_false_iff, !Ascii.eqb_neq. tauto.
Qed.

(** ** Environments of one variable *)

Lemma validateEnvironment_singleton (v : Environment.Variable_.t) :
  validateEnvironment (Environment.mk [v]) = Returned (check_Variable v).
Proof.
  rewrite validateEnvironment_refines. simpl.
  destruct (check_Variable v); reflexivity.
Qed.

(** * Properties of the validators *)

(** ** C1: discriminators outside the closed sets *)

(** C1, as the code behaves.  In both [switch]
    statements [UNREACHABLE()] stands after the last [break]/[return] of the
    body and under no label, so no execution reaches it: a Secret whose
    discriminator is none of REFERENCE, VALUE and UNKNOWN is accepted
    ([None()] is returned), an Environment variable whose discriminator is
    none of VALUE, SECRET and UNKNOWN is passed over as if it were not in the
    sequence, and neither validator ever aborts: every call returns. *)
Theorem unlisted_discriminator_is_accepted :
  (forall raw reference value,
     validateSecret (Secret.mk (Secret.unlisted raw) reference value)
     = Returned None)
  /\ (forall name raw value secret rest,
        validateEnvironment
          (Environment.mk
             (Environment.Variable_.mk name
                (Environment.Variable_.unlisted raw) value secret :: rest))
        = validateEnvironment (Environment.mk rest))
  /\ (forall secret, exists r, validateSecret secret = Returned r)
  /\ (forall environment, exists r,
        validateEnvironment environment = Returned r).
Proof.
  split; [|split; [|split]].
  - intros raw reference value. reflexivity.
  - intros name raw value secret rest.
    unfold validateEnvironment. reflexivity.
  - intros secret. eexists. apply validateSecret_refines.
  - intros environment. eexists. apply validateEnvironment_refines.
Qed.

(** ** C2: secrets *)

(** C2.  A REFERENCE secret with only the reference payload succeeds, fails
    when the reference payload is absent and fails when the value payload is
    present (also next to a reference payload); a VALUE secret is the mirror
    image; an UNKNOWN secret succeeds whatever payloads it has. *)
Theorem validateSecret_payloads :
  forall (r : Secret.Reference) (v : Secret.Value)
         (reference : option Secret.Reference) (value : option Secret.Value),
    validateSecret (Secret.mk Secret.REFERENCE (Some r) None) = Returned None
    /\ validateSecret (Secret.mk Secret.REFERENCE None value)
       = Returned (Some (mkError
           "Secret of type REFERENCE must have the 'reference' field set"))
    /\ validateSecret (Secret.mk Secret.REFERENCE (Some r) (Some v))
       = Returned (Some (mkError
           ("Secret '" ++ Secret.name r ++
            "' of type REFERENCE must not have the 'value' field set")))
    /\ (exists e,
          validateSecret (Secret.mk Secret.REFERENCE reference (Some v))
          = Returned (Some e))
    /\ validateSecret (Secret.mk Secret.VALUE None (Some v)) = Returned None
    /\ validateSecret (Secret.mk Secret.VALUE reference None)
       = Returned (Some (mkError
           "Secret of type VALUE must have the 'value' field set"))
    /\ validateSecret (Secret.mk Secret.VALUE (Some r) (Some v))
       = Returned (Some (mkError
           "Secret of type VALUE must not have the 'reference' field set"))
    /\ (exists e,
          validateSecret (Secret.mk Secret.VALUE (Some r) value)
          = Returned (Some e))
    /\ validateSecret (Secret.mk Secret.UNKNOWN reference value)
       = Returned None.
Proof.
  intros r v reference value.
  split_conjunctions;
    try (destruct reference, value; reflexivity);
    try (destruct reference; eexists; reflexivity);
    destruct value; eexists; reflexivity.
Qed.

(** ** C3: environment variables *)

Lemma check_Variable_VALUE name value secret :
  check_Variable
    (Environment.Variable_.mk name Environment.Variable_.VALUE value secret)
  = None <-> value <> None /\ secret = None.
Proof.
  destruct value, secret; cbn; split; intros H;
    try discriminate; try reflexivity.
  - destruct H; discriminate.
  - split; [discriminate | reflexivity].
  - destruct H as [H _]. contradiction.
  - destruct H as [H _]. contradiction.
Qed.

Lemma check_Variable_SECRET name value secret :
  check_Variable
    (Environment.Variable_.mk name Environment.Variable_.SECRET value secret)
  = None <->
  exists s, secret = Some s /\ value = None
            /\ validateSecret s = Returned None
            /\ ~ In Ascii.zero
                 (list_ascii_of_string (Secret.data (Secret.value s))).
Proof.
  unfold check_Variable.
  cbn [Environment.Variable_.type Variable_rules first_violated].
  unfold violated_when, Environment.Variable_.has_secret,
    Environment.Variable_.has_value, Environment.Variable_.secret.
  cbn [Environment.Variable_.secret_field Environment.Variable_.value_field].
  destruct secret as [s|]; cbn [isSome negb getOrElse].
  2:{ split; [discriminate | intros [s [H _]]; discriminate]. }
  destruct value as [x|]; cbn [isSome].
  1:{ split; [discriminate | intros [s' [_ [H _]]]; discriminate]. }
  destruct (check_Secret s) as [e|] eqn:Hs.
  - split; [discriminate|].
    intros [s' [E [_ [H _]]]]. injection E as <-.
    rewrite validateSecret_refines, Hs in H. discriminate.
  - destruct (contains_char Ascii.zero (Secret.data (Secret.value s))) eqn:Hc.
    + split; [discriminate|].
      intros [s' [E [_ [_ H]]]]. injection E as <-.
      apply contains_char_false in H. congruence.
    + split; [|reflexivity]. intros _. exists s.
      repeat split.
      * rewrite validateSecret_refines, Hs. reflexivity.
      * apply contains_char_false. exact Hc.
Qed.

(** C3.  Alone in an Environment, a VALUE variable succeeds iff its literal
    value is present and its secret absent; a SECRET variable succeeds iff
    its secret is present, its literal value absent, the secret passes
    [validateSecret] and the secret's value holds no null byte; an UNKNOWN
    variable fails.  An Environment succeeds iff each of its variables does,
    and validation always returns, so that not succeeding is failing. *)
Theorem validateEnvironment_variables :
  forall name value secret,
    (validateEnvironment (Environment.mk
       [Environment.Variable_.mk name Environment.Variable_.VALUE
          value secret]) = Returned None
     <-> value <> None /\ secret = None)
    /\ (validateEnvironment (Environment.mk
          [Environment.Variable_.mk name Environment.Variable_.SECRET
             value secret]) = Returned None
        <-> exists s, secret = Some s /\ value = None
                      /\ validateSecret s = Returned None
                      /\ ~ In Ascii.zero
                           (list_ascii_of_string
                              (Secret.data (Secret.value s))))
    /\ validateEnvironment (Environment.mk
         [Environment.Variable_.mk name Environment.Variable_.UNKNOWN
            value secret])
       = Returned (Some (mkError
           "Environment variable of type 'UNKNOWN' is not allowed"))
    /\ (forall variables,
          validateEnvironment (Environment.mk variables) = Returned None
          <-> Forall (fun v => validateEnvironment (Environment.mk [v])
                               = Returned None) variables)
    /\ (forall environment,
          validateEnvironment environment = Returned None
          \/ exists e, validateEnvironment environment = Returned (Some e)).
Proof.
  intros name value secret.
  split; [|split; [|split; [|split]]].
  - rewrite validateEnvironment_singleton.
    etransitivity; [apply Returned_None_iff | apply check_Variable_VALUE].
  - rewrite validateEnvironment_singleton.
    etransitivity; [apply Returned_None_iff | apply check_Variable_SECRET].
  - reflexivity.
  - intros variables. rewrite validateEnvironment_refines. cbn.
    split.
    + intros H. injection H as H. apply first_failure_None in H.
      eapply Forall_impl; [|exact H].
      intros v Hv. rewrite validateEnvironment_singleton, Hv. reflexivity.
    + intros H. f_equal. apply first_failure_None.
      eapply Forall_impl; [|exact H].
      intros v Hv. cbv beta in Hv.
      rewrite validateEnvironment_singleton in Hv. congruence.
  - intros environment. rewrite validateEnvironment_refines.
    destruct (first_failure _ _) as [e|]; [right; exists e|left]; reflexivity.
Qed.

(** ** C4: containers *)

Lemma validateContainerInfo_app (pre post : list Volume.t) :
  Forall (fun u => validateVolume u = Returned None) pre ->
  validateContainerInfo (mkContainerInfo (pre ++ post)) =
  validateContainerInfo (mkContainerInfo post).
Proof.
  intros Hpre. rewrite !validateContainerInfo_refines. cbn [volumes].
  rewrite first_failure_app.
  replace (first_failure _ pre) with (@None Error); [reflexivity|].
  symmetry. apply first_failure_None.
  eapply Forall_impl; [|exact Hpre].
  intros u Hu. cbv beta in *. rewrite validateVolume_refines in Hu.
  injection Hu as ->. reflexivity.
Qed.

Lemma first_invalid_app (pre : list Volume.t) (v : Volume.t)
    (post : list Volume.t) :
  Forall (fun u => validateVolume u = Returned None) pre ->
  validateVolume v <> Returned None ->
  first_invalid (pre ++ v :: post) = Some (List.length pre).
Proof.
  intros Hpre Hv. induction Hpre as [|u pre Hu _ IH]; simpl.
  - destruct (validateVolume v) as [[e|]| |]; try reflexivity.
    contradiction.
  - rewrite Hu, IH. reflexivity.
Qed.

(** C4 (as the code has it).  The volumes are checked in sequence; at the
    first one that [validateVolume] rejects with an error [e], the result is
    the error whose message is "Invalid volume: " followed by the message of
    [e], whatever volumes come before (all valid) or after it. *)
Theorem validateContainerInfo_first_invalid :
  forall (pre : list Volume.t) (v : Volume.t) (post : list Volume.t)
         (e : Error),
    Forall (fun u => validateVolume u = Returned None) pre ->
    validateVolume v = Returned (Some e) ->
    validateContainerInfo (mkContainerInfo (pre ++ v :: post))
    = Returned (Some (mkError ("Invalid volume: " ++ message e)))
    /\ first_invalid (pre ++ v :: post) = Some (List.length pre).
Proof.
  intros pre v post e Hpre Hv. split.
  - rewrite (validateContainerInfo_app pre (v :: post) Hpre).
    unfold validateContainerInfo, validateContainerInfo_body.
    cbn [volumes foreach]. rewrite Hv. reflexivity.
  - apply first_invalid_app; [exact Hpre | congruence].
Qed.

Lemma validateContainerInfo_first_invalid_witness :
  Forall (fun u => validateVolume u = Returned None) [host_path_volume]
  /\ validateVolume (empty_volume "/mnt/scratch")
     = Returned (Some only_one_error)
  /\ validateContainerInfo
       (mkContainerInfo [host_path_volume; empty_volume "/mnt/scratch"])
     = Returned (Some (mkError ("Invalid volume: " ++ message only_one_error)))
  /\ first_invalid [host_path_volume; empty_volume "/mnt/scratch"]
     = Some 1%nat.
Proof.
  assert (Hpre : Forall (fun u => validateVolume u = Returned None)
                   [host_path_volume])
    by (constructor; [reflexivity | constructor]).
  split; [exact Hpre|]. split; [reflexivity|].
  exact (validateContainerInfo_first_invalid
           [host_path_volume] (empty_volume "/mnt/scratch") []
           only_one_error Hpre eq_refl).
Defined.

(** C4 as stated fails: the error carries neither the position nor the
    content of the failing volume.  No function of the returned error gives
    the position of the first invalid volume, and none gives that volume:
    [host_path_volume; empty_volume "/a"] and [empty_volume "/b"] fail with
    the same error, at positions 1 and 0 and on different volumes. *)
Lemma invalid_volume_error_names_no_position :
  ~ (exists position : Error -> nat,
       forall c e, validateContainerInfo c = Returned (Some e) ->
                   first_invalid (volumes c) = Some (position e))
  /\ ~ (exists content : Error -> Volume.t,
          forall c e, validateContainerInfo c = Returned (Some e) ->
                      exists i, first_invalid (volumes c) = Some i
                                /\ nth_error (volumes c) i = Some (content e)).
Proof.
  pose (c1 := mkContainerInfo [host_path_volume; empty_volume "/a"]).
  pose (c2 := mkContainerInfo [empty_volume "/b"]).
  pose (e := mkError ("Invalid volume: " ++ message only_one_error)).
  assert (H1 : validateContainerInfo c1 = Returned (Some e)) by reflexivity.
  assert (H2 : validateContainerInfo c2 = Returned (Some e)) by reflexivity.
  split.
  - intros [position H].
    pose proof (H c1 e H1) as P1. pose proof (H c2 e H2) as P2.
    cbv in P1, P2. congruence.
  - intros [content H].
    destruct (H c1 e H1) as [i [F1 N1]]. destruct (H c2 e H2) as [j [F2 N2]].
    change (first_invalid (volumes c1)) with (Some 1%nat) in F1.
    change (first_invalid (volumes c2)) with (Some 0%nat) in F2.
    injection F1 as <-. injection F2 as <-.
    cbn in N1, N2. rewrite <- N1 in N2. discriminate.
Qed.

(** ** C5: identifiers *)

Lemma string_nonempty_length (s : string) :
  String.eqb s "" = false <-> (1 <= String.length s)%nat.
Proof.
  destruct s; simpl; split; intros H; try reflexivity; try discriminate; lia.
Qed.

(** C5.  An identifier is accepted iff it has between 1 and [NAME_MAX]
    characters, is neither "." nor "..", and none of its characters is a
    control character, '/' or '\'; every other identifier is rejected with
    an error. *)
Theorem validateID_accepts_exactly (NAME_MAX : nat) (id : string) :
  (validateID NAME_MAX id = Returned None
   <-> (1 <= String.length id <= NAME_MAX)%nat
       /\ id <> "." /\ id <> ".."
       /\ forall c, In c (list_ascii_of_string id) ->
                    iscntrl c = false /\ c <> "/"%char /\ c <> "\"%char)
  /\ (validateID NAME_MAX id = Returned None
      \/ exists e, validateID NAME_MAX id = Returned (Some e)).
Proof.
  rewrite validateID_refines. split.
  - unfold ID_rules, first_violated, violated_when.
    destruct (String.eqb id "") eqn:Hempty.
    { apply String.eqb_eq in Hempty. subst id.
      split; [discriminate | simpl; intros [[H _] _]; lia]. }
    apply string_nonempty_length in Hempty.
    destruct (Nat.ltb_spec NAME_MAX (String.length id)) as [Hlong|Hlen].
    { split; [discriminate | intros [[_ H] _]; lia]. }
    destruct (String.eqb_spec id ".") as [Hdot|Hdot].
    { split; [discriminate | intros [_ [H _]]; contradiction]. }
    destruct (String.eqb_spec id "..") as [Hdots|Hdots].
    { split; [discriminate | intros [_ [_ [H _]]]; contradiction]. }
    cbn [orb].
    destruct (any_of invalidCharacter id) eqn:Hchars.
    + split; [discriminate|]. intros [_ [_ [_ H]]].
      apply any_of_In in Hchars. destruct Hchars as [c [Hin Hc]].
      apply H, invalidCharacter_false in Hin. congruence.
    + split; [|reflexivity]. intros _.
      repeat split; try assumption;
        apply invalidCharacter_false;
        apply (proj1 (any_of_false _ _) Hchars); assumption.
  - destruct (first_violated _ id) as [e|];
      [right; exists e | left]; reflexivity.
Qed.

(** ** C6: volumes *)

Lemma source_payload_error_None (s : Volume.Source.t) :
  source_payload_error s = None <-> matching_payload_present s = true.
Proof.
  unfold source_payload_error, matching_payload_present, violated_when.
  destruct (Volume.Source.type s);
    try (split; discriminate);
    match goal with
    | |- context [negb ?b] => destruct b
    end; cbn; split; congruence.
Qed.

(** C6.  A volume is accepted iff exactly one of host_path, image and source
    is populated and, when that slot is source, the payload announced by the
    source's discriminator is present; validation never aborts, it returns
    success or an error; and a source whose discriminator is none of
    DOCKER_VOLUME, HOST_PATH, SANDBOX_PATH and SECRET is rejected with the
    error "'source.type' is unknown". *)
Theorem validateVolume_accepts_exactly :
  forall v : Volume.t,
    (validateVolume v = Returned None
     <-> populated_slots v = 1%nat
         /\ forall s, Volume.source_field v = Some s ->
                      matching_payload_present s = true)
    /\ (validateVolume v = Returned None
        \/ exists e, validateVolume v = Returned (Some e))
    /\ (forall container_path raw docker_volume host_path sandbox_path secret,
          validateVolume
            (Volume.mk container_path None None
               (Some (Volume.Source.mk (Volume.Source.unlisted raw)
                        docker_volume host_path sandbox_path secret)))
          = Returned (Some (mkError "'source.type' is unknown")))
    /\ (forall container_path docker_volume host_path sandbox_path secret,
          validateVolume
            (Volume.mk container_path None None
               (Some (Volume.Source.mk Volume.Source.UNKNOWN
                        docker_volume host_path sandbox_path secret)))
          = Returned (Some (mkError "'source.type' is unknown"))).
Proof.
  intros v. split_conjunctions.
  - rewrite validateVolume_refines.
    etransitivity; [apply Returned_None_iff|].
    unfold check_Volume, Volume_rules, first_violated, violated_when.
    destruct (Nat.eqb_spec (populated_slots v) 1) as [Hone|Hone]; cbn [negb].
    + destruct (Volume.source_field v) as [s|].
      * pose proof (source_payload_error_None s) as Hs.
        destruct (source_payload_error s) as [e|]; split.
        -- discriminate.
        -- intros [_ H]. apply Hs, H. reflexivity.
        -- intros _. split; [exact Hone|]. intros s' E.
           injection E as <-. apply Hs. reflexivity.
        -- reflexivity.
      * split; [|reflexivity]. intros _. split; [exact Hone|].
        intros s E. discriminate.
    + split; [discriminate | intros [H _]; contradiction].
  - rewrite validateVolume_refines.
    destruct (check_Volume v) as [e|]; [right; exists e | left]; reflexivity.
  - reflexivity.
  - reflexivity.
Qed.

(** ** The binary64 product with 1000.0

    The rounding of [SpecFloat], followed far enough to know when the cast
    of the product to [long long] is defined and when the product is
    exact. *)

Section Product.
Import Corelib.Floats.PrimFloat.
#[local] Open Scope Z_scope.

Lemma digits2_pos_log2 (p : positive) :
  Zpos (SpecFloat.digits2_pos p) = Z.log2 (Zpos p) + 1.
Proof.
  induction p as [p IH|p IH|]; cbn [SpecFloat.digits2_pos].
  - rewrite Pos2Z.inj_succ, IH.
    rewrite Pos2Z.inj_xI.
    rewrite Z.log2_succ_double by lia. lia.
  - rewrite Pos2Z.inj_succ, IH.
    rewrite Pos2Z.inj_xO.
    rewrite Z.log2_double by lia. lia.
  - reflexivity.
Qed.

Lemma Zdigits2_log2 (m : Z) :
  0 < m -> SpecFloat.Zdigits2 m = Z.log2 m + 1.
Proof. destruct m; try lia. intros _. apply digits2_pos_log2. Qed.


Lemma pow2_xO (n : positive) : 2 ^ Zpos n~0 = 2 ^ Zpos n * 2 ^ Zpos n.
Proof.
  replace (Zpos n~0) with (Zpos n + Zpos n) by lia.
  apply Z.pow_add_r; lia.
Qed.

Lemma pow2_xI (n : positive) : 2 ^ Zpos n~1 = 2 * (2 ^ Zpos n * 2 ^ Zpos n).
Proof.
  replace (Zpos n~1) with (1 + (Zpos n + Zpos n)) by lia.
  rewrite !Z.pow_add_r by lia. reflexivity.
Qed.



Lemma fexp_value (x : Z) : SpecFloat.fexp FloatOps.prec FloatOps.emax x = Z.max (x - 53) (-1074).
Proof. reflexivity. Qed.






Lemma pos_lt_pow_digits (m : positive) :
  Zpos m < 2 ^ Zpos (SpecFloat.digits2_pos m).
Proof.
  rewrite digits2_pos_log2.
  pose proof (Z.log2_spec (Zpos m) ltac:(lia)). lia.
Qed.


Lemma Prim2SF_1000 :
  FloatOps.Prim2SF 1000%float
  = SpecFloat.S754_finite false 8796093022208000 (-43).
Proof. vm_compute. reflexivity. Qed.



Lemma iter_pos_shr_1_exact (n m : positive) :
  SpecFloat.iter_pos SpecFloat.shr_1 n
    (SpecFloat.Build_shr_record (Zpos (Pos.iter xO m n)) false false)
  = SpecFloat.Build_shr_record (Zpos m) false false.
Proof.
  revert m. induction n as [n IH|n IH|]; intros m;
    cbn [SpecFloat.iter_pos Pos.iter].
  - cbn [SpecFloat.shr_1 orb]. rewrite IH, IH. reflexivity.
  - rewrite IH, IH. reflexivity.
  - reflexivity.
Qed.

Lemma Zpos_iter_xO (m n : positive) :
  Zpos (Pos.iter xO m n) = Zpos m * 2 ^ Zpos n.
Proof.
  revert m. induction n as [n IH|n IH|]; intros m; cbn [Pos.iter].
  - rewrite Pos2Z.inj_xO, IH, IH, pow2_xI. ring.
  - rewrite IH, IH, pow2_xO. ring.
  - rewrite Pos2Z.inj_xO. change (2 ^ 1) with 2. ring.
Qed.

(** A product whose mantissa is a 53-digit number followed by [n] zero
    digits is rounded to that number, exactly. *)
Lemma binary_round_aux_exact (s : bool) (m n : positive) (E : Z) :
  Zpos (SpecFloat.digits2_pos m) = 53 ->
  -1074 <= E + Zpos n <= 971 ->
  SpecFloat.binary_round_aux FloatOps.prec FloatOps.emax s (Zpos (Pos.iter xO m n)) E
    SpecFloat.loc_Exact
  = SpecFloat.S754_finite s m (E + Zpos n).
Proof.
  intros Hm HE.
  assert (HD : SpecFloat.Zdigits2 (Zpos (Pos.iter xO m n)) = 53 + Zpos n).
  { rewrite Zdigits2_log2 by lia.
    rewrite Zpos_iter_xO, Z.log2_mul_pow2 by lia.
    rewrite digits2_pos_log2 in Hm. lia. }
  unfold SpecFloat.binary_round_aux, SpecFloat.shr_fexp.
  rewrite HD, fexp_value.
  replace (Z.max (53 + Zpos n + E - 53) (-1074) - E) with (Zpos n) by lia.
  cbn [SpecFloat.shr SpecFloat.shr_record_of_loc].
  rewrite iter_pos_shr_1_exact.
  cbn [SpecFloat.shr_m SpecFloat.loc_of_shr_record SpecFloat.round_nearest_even
       SpecFloat.Zdigits2].
  rewrite Hm, fexp_value.
  replace (Z.max (53 + (E + Zpos n) - 53) (-1074) - (E + Zpos n)) with 0 by lia.
  cbn [SpecFloat.shr SpecFloat.shr_record_of_loc SpecFloat.shr_m].
  replace (E + Zpos n <=? FloatOps.emax - FloatOps.prec) with true
    by (symmetry; apply Z.leb_le; change (FloatOps.emax - FloatOps.prec) with 971; lia).
  reflexivity.
Qed.

Lemma truncate_finite (x : float) (s : bool) (m : positive) (e : Z) :
  FloatOps.Prim2SF x = SpecFloat.S754_finite s m e ->
  truncate x =
  Some (let magnitude := if e <? 0 then Zpos m / 2 ^ (- e) else Zpos m * 2 ^ e in
        if s then - magnitude else magnitude).
Proof.
  intros Hx. unfold truncate. rewrite Hx. destruct e as [|p|p]; cbv zeta.
  - rewrite Z.shiftl_0_r. cbn [Z.ltb Z.compare Z.pow]. rewrite Z.mul_1_r.
    reflexivity.
  - rewrite Z.shiftl_mul_pow2 by lia. reflexivity.
  - rewrite Z.shiftr_div_pow2 by lia. reflexivity.
Qed.

Lemma canonical_finite (d : float) (s : bool) (m : positive) (e : Z) :
  FloatOps.Prim2SF d = SpecFloat.S754_finite s m e ->
  Z.max (Zpos (SpecFloat.digits2_pos m) + e - 53) (-1074) = e.
Proof.
  intros Hd. pose proof (FloatAxioms.Prim2SF_valid d) as Hv.
  rewrite Hd in Hv. cbn [SpecFloat.valid_binary] in Hv.
  unfold SpecFloat.bounded, SpecFloat.canonical_mantissa in Hv.
  apply andb_true_iff in Hv. destruct Hv as [Hc _].
  apply Z.eqb_eq in Hc. rewrite fexp_value in Hc. exact Hc.
Qed.

Lemma Some_inj {A} (a b : A) : Some a = Some b -> a = b.
Proof. intros H. injection H as H. exact H. Qed.

(** The product with 1000.0 of a whole number [j] below 2^52 in magnitude
    whose odd part, times 125, is below 2^53 is exact: its truncation is
    1000 * j. *)
Lemma fixed_point_3_whole (d : float) (j k t : Z) :
  whole_value d = Some j ->
  Z.abs j = k * 2 ^ t ->
  0 <= t ->
  0 < k ->
  125 * k < 2 ^ 53 ->
  Z.abs j < 2 ^ 52 ->
  fixed_point_3 d = Some (1000 * j).
Proof.
  unfold whole_value. intros Hw Hjk Ht Hk Hk125 Hj.
  change (2 ^ 52) with 4503599627370496 in Hj.
  pose proof (FloatAxioms.mul_spec d 1000%float) as Hmul.
  rewrite Prim2SF_1000 in Hmul.
  assert (Hcast : forall z, - 2 ^ 63 < z < 2 ^ 63 ->
            truncate (d * 1000)%float = Some z ->
            fixed_point_3 d = Some z).
  { intros z Hz Htr. unfold fixed_point_3, static_cast_long_long. rewrite Htr.
    replace ((LLONG_MIN <=? z) && (z <=? LLONG_MAX)) with true; [reflexivity|].
    symmetry. apply andb_true_iff. unfold LLONG_MIN, LLONG_MAX.
    split; apply Z.leb_le; lia. }
  destruct (FloatOps.Prim2SF d) as [s| | |s m e] eqn:Hd; try discriminate.
  - apply Some_inj in Hw. subst j. cbn in Hmul.
    apply Hcast; [lia|]. unfold truncate. rewrite Hmul. reflexivity.
  - pose proof (canonical_finite d s m e Hd) as Hc.
    pose proof (pos_lt_pow_digits m) as Hmlt.
    pose proof (digits2_pos_log2 m) as Hlog.
    pose proof (Z.log2_spec (Zpos m) ltac:(lia)) as Hspec.
    set (D := Zpos (SpecFloat.digits2_pos m)) in *.
    destruct e as [|p|p].
    + (* a whole number with exponent 0 has 53 digits: too large *)
      exfalso. assert (HD : D = 53) by lia.
      change (2 ^ 0) with 1 in Hw. rewrite Z.mul_1_r in Hw.
      apply Some_inj in Hw. subst j.
      assert (2 ^ 52 <= Zpos m) by (replace 52 with (Z.log2 (Zpos m)) by lia; lia).
      change (2 ^ 52) with 4503599627370496 in *.
      destruct s; lia.
    + exfalso. assert (HD : D = 53) by lia.
      apply Some_inj in Hw. subst j.
      assert (2 ^ 52 <= Zpos m) by (replace 52 with (Z.log2 (Zpos m)) by lia; lia).
      change (2 ^ 52) with 4503599627370496 in *.
      assert (0 < 2 ^ Zpos p) by (apply Z.pow_pos_nonneg; lia).
      assert (Zpos m <= Zpos m * 2 ^ Zpos p) by nia.
      destruct s; lia.
    + destruct (Zpos m mod 2 ^ Zpos p =? 0) eqn:Hmod; [|discriminate].
      apply Z.eqb_eq in Hmod.
      assert (Hpow : 0 < 2 ^ Zpos p) by (apply Z.pow_pos_nonneg; lia).
      set (a := Zpos m / 2 ^ Zpos p) in *.
      assert (Hma : Zpos m = a * 2 ^ Zpos p).
      { unfold a. pose proof (Z.div_mod (Zpos m) (2 ^ Zpos p) ltac:(lia)). lia. }
      assert (Ha : 0 < a) by nia.
      assert (Hja : Z.abs j = a) by (apply Some_inj in Hw; subst j; destruct s; lia).
      rewrite Hja in Hj, Hjk.
      assert (Hpowt : 0 < 2 ^ t) by (apply Z.pow_pos_nonneg; lia).
      assert (Htlt : t < 52).
      { destruct (Z.le_gt_cases 52 t) as [Hbig|]; [|lia].
        assert (2 ^ 52 <= 2 ^ t) by (apply Z.pow_le_mono_r; lia).
        change (2 ^ 52) with 4503599627370496 in *. nia. }
      assert (HD : D = 53).
      { destruct (Z.eq_dec D 53) as [E|E]; [exact E|exfalso].
        assert (Hp : Zpos p = 1074) by lia.
        assert (D <= 53) by lia.
        assert (Zpos m < 2 ^ 53)
          by (apply Z.lt_le_trans with (2 ^ D); [exact Hmlt|];
              apply Z.pow_le_mono_r; lia).
        assert (2 ^ 53 <= 2 ^ Zpos p)
          by (apply Z.pow_le_mono_r; lia).
        nia. }
      set (q := 125 * k) in *.
      assert (Hq : 0 < q) by (unfold q; lia).
      pose proof (Z.log2_spec q Hq) as Hqspec.
      set (L := Z.log2 q) in *.
      assert (HL : 6 <= L <= 52).
      { split.
        - apply Z.log2_le_pow2; [lia|]. change (2 ^ 6) with 64. unfold q. lia.
        - destruct (Z.le_gt_cases 53 L) as [Hbig|]; [|lia].
          assert (2 ^ 53 <= 2 ^ L) by (apply Z.pow_le_mono_r; lia). lia. }
      set (m' := Z.to_pos (q * 2 ^ (52 - L))).
      set (n := Z.to_pos (Zpos p + t + L - 6)).
      assert (Hpow' : 0 < 2 ^ (52 - L)) by (apply Z.pow_pos_nonneg; lia).
      assert (Hm' : Zpos m' = q * 2 ^ (52 - L)) by (unfold m'; rewrite Z2Pos.id; nia).
      assert (Hn : Zpos n = Zpos p + t + L - 6) by (unfold n; rewrite Z2Pos.id; lia).
      assert (Hprod : (m * 8796093022208000)%positive = Pos.iter xO m' n).
      { apply Pos2Z.inj. rewrite Zpos_iter_xO, Pos2Z.inj_mul, Hm', Hn, Hma, Hjk.
        replace (Zpos p + t + L - 6) with ((L - 6) + t + Zpos p) by lia.
        rewrite !Z.pow_add_r by lia.
        change (Zpos 8796093022208000) with (125 * 2 ^ 46).
        replace (2 ^ 46) with (2 ^ (52 - L) * 2 ^ (L - 6))
          by (rewrite <- Z.pow_add_r by lia; f_equal; lia).
        unfold q. ring. }
      assert (Hdig : Zpos (SpecFloat.digits2_pos m') = 53).
      { rewrite digits2_pos_log2, Hm', Z.log2_mul_pow2 by lia. lia. }
      unfold FloatAxioms.SF64mul, SpecFloat.SFmul in Hmul.
      rewrite Hprod, binary_round_aux_exact in Hmul by (rewrite ?Hn; lia).
      rewrite xorb_false_r in Hmul.
      apply Hcast; [|rewrite (truncate_finite _ _ _ _ Hmul)].
      * apply Some_inj in Hw. subst j. destruct s; lia.
      * f_equal. cbv zeta. rewrite Hn, Hm'.
        replace (Z.neg p + -43 + (Zpos p + t + L - 6)) with (t + L - 49) by lia.
        assert (Hmag : (if t + L - 49 <? 0
                        then q * 2 ^ (52 - L) / 2 ^ (- (t + L - 49))
                        else q * 2 ^ (52 - L) * 2 ^ (t + L - 49)) = 1000 * a).
        { assert (H8 : 2 ^ (3 + t) = 8 * 2 ^ t)
            by (rewrite Z.pow_add_r by lia; reflexivity).
          destruct (Z.ltb_spec (t + L - 49) 0).
          - replace (2 ^ (52 - L)) with (2 ^ (3 + t) * 2 ^ (- (t + L - 49)))
              by (rewrite <- Z.pow_add_r by lia; f_equal; lia).
            rewrite Z.mul_assoc, Z.div_mul
              by (apply Z.pow_nonzero; lia).
            rewrite H8, Hjk. unfold q. ring.
          - rewrite <- Z.mul_assoc, <- Z.pow_add_r by lia.
            replace (52 - L + (t + L - 49)) with (3 + t) by lia.
            rewrite H8, Hjk. unfold q. ring. }
        rewrite Hmag. apply Some_inj in Hw. subst j. destruct s; lia.
Qed.
End Product.

(** ** C7 and C10: the gpus scalar *)

Lemma In_range (lo : Z) (n : nat) (k : Z) :
  (lo <= k < lo + Z.of_nat n)%Z -> In k (range lo n).
Proof.
  revert lo. induction n as [|n IH]; intros lo H; simpl.
  - lia.
  - destruct (Z.eq_dec lo k) as [E|E]; [left; exact E|].
    right. apply IH. lia.
Qed.

Section GpusClaims.
Import Corelib.Floats.PrimFloat.
#[local] Set Warnings "-inexact-float".

(** Among the scalars of 0 to 20 gpus, those accepted are the whole numbers
    and, besides, 1.001 and 8.001. *)
Lemma accepts_gpus_sweep :
  forallb (fun k => Bool.eqb (accepts_gpus (three_decimal k))
                      ((Z.rem k 1000 =? 0) || (k =? 1001) || (k =? 8001))%Z)
    (range 0 (Z.to_nat 20001)) = true.
Proof. vm_compute. reflexivity. Qed.

Variable Resource : Type.
Variable Resources_gpus : list Resource -> option float.

Lemma validateGpus_at (resources : list Resource) (d : float) (n : Z) :
  getOrElse (Resources_gpus resources) 0%float = d ->
  fixed_point_3 d = Some n ->
  validateGpus Resource Resources_gpus resources =
  Returned (violated_when (negb (fractional_remainder n =? 0)%Z) gpus_error).
Proof.
  intros Hd Hn. rewrite validateGpus_refines, Hd, Hn. reflexivity.
Qed.

Lemma validateGpus_accepts (resources : list Resource) (d : float) :
  Resources_gpus resources = Some d ->
  (validateGpus Resource Resources_gpus resources = Returned None
   <-> accepts_gpus d = true).
Proof.
  intros Hd. unfold accepts_gpus.
  replace (validateGpus unit (fun _ => Some d) [])
    with (validateGpus Resource Resources_gpus resources)
    by (unfold validateGpus; rewrite Hd; reflexivity).
  destruct (validateGpus Resource Resources_gpus resources) as [[e|]| |];
    cbv iota; split; intros H; first [reflexivity | discriminate H].
Qed.

(** C7, as the code behaves.  The scalar is multiplied by 1000.0 in binary64
    and the product is cut, not rounded, to an integer.  So the scalar 1.001,
    whose value at 3-decimal fixed-point precision is 1001 thousandths with
    fractional remainder 1, is accepted: 1.001 * 1000.0 is
    1000.9999999999999, cut to 1000.  Among the scalars of 0 to 20 gpus the
    accepted ones are the whole numbers and, besides, 1.001 and 8.001.  The
    particular cases hold: 2.000 and resources without gpus succeed, 2.5 and
    1.999 fail. *)
Theorem validateGpus_accepts_fractional_scalar (resources : list Resource) :
  (Resources_gpus resources = Some 1.001%float ->
   validateGpus Resource Resources_gpus resources = Returned None)
  /\ three_decimal 1001 = 1.001%float
  /\ fractional_remainder 1001 = 1%Z
  /\ (forall k : Z,
        (0 <= k <= 20000)%Z ->
        Resources_gpus resources = Some (three_decimal k) ->
        (validateGpus Resource Resources_gpus resources = Returned None
         <-> fractional_remainder k = 0%Z \/ k = 1001%Z \/ k = 8001%Z))
  /\ (Resources_gpus resources = Some 2.000%float ->
      validateGpus Resource Resources_gpus resources = Returned None)
  /\ (Resources_gpus resources = Some 2.5%float ->
      validateGpus Resource Resources_gpus resources
      = Returned (Some gpus_error))
  /\ (Resources_gpus resources = Some 1.999%float ->
      validateGpus Resource Resources_gpus resources
      = Returned (Some gpus_error))
  /\ (Resources_gpus resources = None ->
      validateGpus Resource Resources_gpus resources = Returned None).
Proof.
  split_conjunctions.
  - intros H. apply (validateGpus_at resources 1.001%float 1000%Z).
    + rewrite H. reflexivity.
    + vm_compute. reflexivity.
  - vm_compute. reflexivity.
  - reflexivity.
  - intros k Hk Hd.
    rewrite (validateGpus_accepts resources _ Hd).
    pose proof (proj1 (forallb_forall _ _) accepts_gpus_sweep k) as Hsweep.
    cbv beta in Hsweep.
    assert (Hin : In k (range 0 (Z.to_nat 20001))) by (apply In_range; lia).
    apply Hsweep, Bool.eqb_prop in Hin. rewrite Hin.
    rewrite <- rem_fractional_remainder.
    rewrite !orb_true_iff, !Z.eqb_eq. tauto.
  - intros H. apply (validateGpus_at resources 2.000%float 2000%Z).
    + rewrite H. reflexivity.
    + vm_compute. reflexivity.
  - intros H. apply (validateGpus_at resources 2.5%float 2500%Z).
    + rewrite H. reflexivity.
    + vm_compute. reflexivity.
  - intros H. apply (validateGpus_at resources 1.999%float 1999%Z).
    + rewrite H. reflexivity.
    + vm_compute. reflexivity.
  - intros H. apply (validateGpus_at resources 0%float 0%Z).
    + rewrite H. reflexivity.
    + vm_compute. reflexivity.
Qed.

(** C10, as the code has it.  When the gpus scalar is a negative whole
    number [j] of magnitude at most 72057594037928, [validateGpus]
    succeeds: the product with 1000.0 is exact in binary64, so the
    remainder is 0, and there is no check on the sign.  The next whole
    number, -72057594037929, is the first one that is rejected.
    The one error the validator can return is the one that asks for an
    unsigned integer. *)
Theorem validateGpus_accepts_negative_whole
    (resources : list Resource) (d : float) (j : Z) :
  Resources_gpus resources = Some d ->
  whole_value d = Some j ->
  (-72057594037928 <= j < 0)%Z ->
  validateGpus Resource Resources_gpus resources = Returned None
  /\ (forall (others : list Resource) (e : Error),
        validateGpus Resource Resources_gpus others = Returned (Some e) ->
        message e = "The 'gpus' resource must be an unsigned integer").
Proof.
  intros Hd Hw Hj. split.
  - assert (Hfixed : fixed_point_3 d = Some (1000 * j)%Z).
    { destruct (Z.eq_dec j (-72057594037928)) as [->|Hne].
      - apply (fixed_point_3_whole d _ 9007199254741 3);
          [exact Hw | reflexivity | lia | lia | reflexivity | reflexivity].
      - apply (fixed_point_3_whole d j (- j) 0); [exact Hw | | lia | lia | |].
        + rewrite Z.pow_0_r. lia.
        + change (2 ^ 53)%Z with 9007199254740992%Z. lia.
        + change (2 ^ 52)%Z with 4503599627370496%Z. lia. }
    rewrite (validateGpus_at resources d (1000 * j)%Z);
      [| rewrite Hd; reflexivity | exact Hfixed].
    unfold fractional_remainder.
    replace (1000 * j)%Z with (j * 1000)%Z by lia.
    rewrite Z.quot_mul by lia.
    replace (j * 1000 - 1000 * j)%Z with 0%Z by lia.
    reflexivity.
  - clear. intros others e. rewrite validateGpus_refines.
    destruct (fixed_point_3 _) as [m|]; [|discriminate].
    unfold violated_when. destruct (negb _); [|discriminate].
    intros H. injection H as <-. reflexivity.
Qed.
End GpusClaims.

Section GpusWitnesses.
Import Corelib.Floats.PrimFloat.
#[local] Set Warnings "-inexact-float".

Lemma validateGpus_accepts_fractional_scalar_witness :
  validateGpus _ sample_gpus [("cpus", 4%float); ("gpus", 1.001%float)]
  = Returned None
  /\ validateGpus _ sample_gpus [("gpus", three_decimal 8001)]
     = Returned None
  /\ validateGpus _ sample_gpus [("cpus", 4%float); ("gpus", 2.000%float)]
     = Returned None
  /\ validateGpus _ sample_gpus [("gpus", 2.5%float)]
     = Returned (Some gpus_error)
  /\ validateGpus _ sample_gpus [("gpus", 1.999%float); ("mem", 512%float)]
     = Returned (Some gpus_error)
  /\ validateGpus _ sample_gpus [("cpus", 4%float)] = Returned None.
Proof.
  split_conjunctions.
  - exact (proj1
      (validateGpus_accepts_fractional_scalar _ sample_gpus
         [("cpus", 4%float); ("gpus", 1.001%float)]) eq_refl).
  - apply (proj1 (proj2 (proj2 (proj2
      (validateGpus_accepts_fractional_scalar _ sample_gpus
         [("gpus", three_decimal 8001)]))))
      8001%Z); [lia | reflexivity | right; right; reflexivity].
  - exact (proj1 (proj2 (proj2 (proj2 (proj2
      (validateGpus_accepts_fractional_scalar _ sample_gpus
         [("cpus", 4%float); ("gpus", 2.000%float)]))))) eq_refl).
  - exact (proj1 (proj2 (proj2 (proj2 (proj2 (proj2
      (validateGpus_accepts_fractional_scalar _ sample_gpus
         [("gpus", 2.5%float)])))))) eq_refl).
  - exact (proj1 (proj2 (proj2 (proj2 (proj2 (proj2 (proj2
      (validateGpus_accepts_fractional_scalar _ sample_gpus
         [("gpus", 1.999%float); ("mem", 512%float)]))))))) eq_refl).
  - exact (proj2 (proj2 (proj2 (proj2 (proj2 (proj2 (proj2
      (validateGpus_accepts_fractional_scalar _ sample_gpus
         [("cpus", 4%float)]))))))) eq_refl).
Defined.

Lemma validateGpus_accepts_negative_whole_witness :
  sample_gpus [("gpus", (-2.000)%float)] = Some (-2.000)%float
  /\ whole_value (-2.000)%float = Some (-2)%Z
  /\ (-72057594037928 <= -2 < 0)%Z
  /\ validateGpus _ sample_gpus [("gpus", (-2.000)%float)] = Returned None.
Proof.
  assert (Hwhole : whole_value (-2.000)%float = Some (-2)%Z)
    by (vm_compute; reflexivity).
  assert (Hj : (-72057594037928 <= -2 < 0)%Z) by lia.
  split; [reflexivity|]. split; [exact Hwhole|]. split; [exact Hj|].
  exact (proj1 (validateGpus_accepts_negative_whole _ sample_gpus
                  [("gpus", (-2.000)%float)] (-2.000)%float (-2)%Z
                  eq_refl Hwhole Hj)).
Defined.

(** C10 as stated fails: -72057594037929 is a negative whole number, and a
    binary64 value; its product with 1000.0 is rounded to a number that is
    not a multiple of 1000, and [validateGpus] rejects it. *)
Lemma validateGpus_rejects_large_negative_whole :
  whole_value (of_Z (-72057594037929)) = Some (-72057594037929)%Z
  /\ sample_gpus [("gpus", of_Z (-72057594037929))]
     = Some (of_Z (-72057594037929))
  /\ fixed_point_3 (of_Z (-72057594037929))
     = Some (-72057594037928992)%Z
  /\ validateGpus _ sample_gpus [("gpus", of_Z (-72057594037929))]
     = Returned (Some gpus_error).
Proof.
  split_conjunctions; vm_compute; reflexivity.
Qed.
End GpusWitnesses.

(** ** C8: one error, the first *)



Section FirstViolationWitness.
Import Corelib.Floats.PrimFloat.

End FirstViolationWitness.

(** ** C9: SECRET variables with a REFERENCE secret *)

(** C9 as stated fails: a SECRET variable whose secret is a valid REFERENCE
    secret, but which also has a literal value, is rejected. *)
Lemma reference_secret_variable_with_literal_fails :
  Environment.Variable_.type token_with_literal = Environment.Variable_.SECRET
  /\ Environment.Variable_.secret_field token_with_literal
     = Some reference_secret
  /\ Secret.type reference_secret = Secret.REFERENCE
  /\ Secret.has_reference reference_secret = true
  /\ Secret.has_value reference_secret = false
  /\ validateSecret reference_secret = Returned None
  /\ validateEnvironment (Environment.mk [token_with_literal])
     = Returned (Some (mkError
         "Environment variable 'TOKEN' of type 'SECRET' must not have a value set"))
  /\ validateEnvironment (Environment.mk [token_with_literal])
     <> Returned None.
Proof.
  split_conjunctions; try reflexivity. discriminate.
Qed.

(** C9 (as the code has it).  For a SECRET variable whose secret is a
    REFERENCE secret with the reference payload and without the value
    payload: the null-byte check reads the data of the absent value payload,
    the empty string, and so never rejects the variable; the variable is
    rejected only when it has a literal value; without one it is accepted,
    and it can be dropped from any Environment without changing the result.
    The result does not depend on the reference. *)
Theorem reference_secret_variable_passes :
  forall (name : string) (r : Secret.Reference)
         (value : option string)
         (pre post : list Environment.Variable_.t),
    Secret.data (Secret.value (Secret.mk Secret.REFERENCE (Some r) None)) = ""
    /\ contains_char Ascii.zero
         (Secret.data (Secret.value (Secret.mk Secret.REFERENCE (Some r) None)))
       = false
    /\ validateEnvironment (Environment.mk
         [Environment.Variable_.mk name Environment.Variable_.SECRET value
            (Some (Secret.mk Secret.REFERENCE (Some r) None))])
       = Returned
           match value with
           | Some _ =>
               Some (mkError ("Environment variable '" ++ name ++
                              "' of type 'SECRET' must not have a value set"))
           | None => None
           end
    /\ validateEnvironment (Environment.mk
         (pre ++
          Environment.Variable_.mk name Environment.Variable_.SECRET None
            (Some (Secret.mk Secret.REFERENCE (Some r) None)) :: post))
       = validateEnvironment (Environment.mk (pre ++ post)).
Proof.
  intros name r value pre post. split_conjunctions.
  - reflexivity.
  - reflexivity.
  - destruct value; reflexivity.
  - rewrite !validateEnvironment_refines. cbn [Environment.variables].
    rewrite !first_failure_app. reflexivity.
Qed.

(** * Further properties *)

(** ** Identifiers of every kind *)

Lemma length_append (a b : string) :
  String.length (a ++ b) = (String.length a + String.length b)%nat.
Proof.
  induction a as [|c a IH]; simpl; [reflexivity | rewrite IH; reflexivity].
Qed.

Lemma any_of_append (p : ascii -> bool) (a b : string) :
  any_of p (a ++ b) = any_of p a || any_of p b.
Proof.
  induction a as [|c a IH]; simpl.
  - reflexivity.
  - rewrite IH, orb_assoc. reflexivity.
Qed.

(** The acceptance test of [validateID], rule by rule. *)
Lemma validateID_success (NAME_MAX : nat) (id : string) :
  validateID NAME_MAX id = Returned None <->
  String.eqb id "" = false
  /\ (NAME_MAX <? String.length id)%nat = false
  /\ String.eqb id "." = false
  /\ String.eqb id ".." = false
  /\ any_of invalidCharacter id = false.
Proof.
  unfold validateID.
  destruct (String.eqb id ""); cbn [when seq function];
    [split; [discriminate | intros [H _]; discriminate]|].
  destruct (NAME_MAX <? String.length id)%nat; cbn [when seq function];
    [split; [discriminate | intros [_ [H _]]; discriminate]|].
  destruct (String.eqb id "."); cbn [orb when seq function];
    [split; [discriminate | intros [_ [_ [H _]]]; discriminate]|].
  destruct (String.eqb id ".."); cbn [when seq function];
    [split; [discriminate | intros [_ [_ [_ [H _]]]]; discriminate]|].
  destruct (any_of invalidCharacter id); cbn [when seq function];
    [split; [discriminate | intros [_ [_ [_ [_ H]]]]; discriminate]|].
  split; [intros _; repeat split | reflexivity].
Qed.

(** X1.  The validators of task, executor, agent and framework IDs apply
    [validateID] to the value of the ID and return its result unchanged.
    So on IDs with the same value they return the same result, success or
    the same error, and a value accepted as an ID of one kind is accepted
    as an ID of every kind. *)
Theorem ID_kinds_share_one_rule_set (NAME_MAX : nat) :
  (forall taskId : TaskID,
     validateTaskID NAME_MAX taskId
     = validateID NAME_MAX (TaskID_value taskId))
  /\ (forall executorId : ExecutorID,
        validateExecutorID NAME_MAX executorId
        = validateID NAME_MAX (ExecutorID_value executorId))
  /\ (forall slaveId : SlaveID,
        validateSlaveID NAME_MAX slaveId
        = validateID NAME_MAX (SlaveID_value slaveId))
  /\ (forall frameworkId : FrameworkID,
        validateFrameworkID NAME_MAX frameworkId
        = validateID NAME_MAX (FrameworkID_value frameworkId))
  /\ (forall value : string,
        validateExecutorID NAME_MAX (mkExecutorID value)
        = validateTaskID NAME_MAX (mkTaskID value)
        /\ validateSlaveID NAME_MAX (mkSlaveID value)
           = validateTaskID NAME_MAX (mkTaskID value)
        /\ validateFrameworkID NAME_MAX (mkFrameworkID value)
           = validateTaskID NAME_MAX (mkTaskID value)
        /\ validateTaskID NAME_MAX (mkTaskID value)
           = validateID NAME_MAX value
        /\ (validateTaskID NAME_MAX (mkTaskID value) = Returned None
            <-> (1 <= String.length value <= NAME_MAX)%nat
                /\ value <> "." /\ value <> ".."
                /\ any_of invalidCharacter value = false)).
Proof.
  split_conjunctions; try reflexivity.
  intros value. split_conjunctions; try reflexivity.
  unfold validateTaskID. cbn [TaskID_value].
  rewrite validateID_success, string_nonempty_length.
  rewrite Nat.ltb_ge, !String.eqb_neq. tauto.
Qed.

(** X2.  Accepted identifiers are closed under concatenation, as long as the
    result is not longer than [NAME_MAX]: joining two accepted identifiers
    can produce neither "." nor "..", nor bring in a forbidden character. *)
Theorem validateID_append (NAME_MAX : nat) (a b : string) :
  validateID NAME_MAX a = Returned None ->
  validateID NAME_MAX b = Returned None ->
  (String.length a + String.length b <= NAME_MAX)%nat ->
  validateID NAME_MAX (a ++ b) = Returned None.
Proof.
  rewrite !validateID_success.
  intros [Ha [_ [Hadot [_ Hachars]]]] [Hb [_ [_ [_ Hbchars]]]] Hlen.
  apply string_nonempty_length in Ha, Hb.
  assert (Hl : (2 <= String.length (a ++ b) <= NAME_MAX)%nat)
    by (rewrite length_append; lia).
  split_conjunctions.
  - apply string_nonempty_length. lia.
  - apply Nat.ltb_ge. lia.
  - apply String.eqb_neq. intros E. rewrite E in Hl. simpl in Hl. lia.
  - apply String.eqb_neq. intros E.
    destruct a as [|c [|c' a']]; simpl in Ha; [lia | |].
    + destruct b as [|d b']; simpl in Hb; [lia|].
      simpl in E. injection E as -> _.
      rewrite String.eqb_refl in Hadot. discriminate.
    + apply (f_equal String.length) in E. simpl in E.
      rewrite length_append in E. lia.
  - rewrite any_of_append, Hachars, Hbchars. reflexivity.
Qed.

Lemma validateID_append_witness :
  validateID 255 "task-" = Returned None
  /\ validateID 255 "42" = Returned None
  /\ (String.length "task-" + String.length "42" <= 255)%nat
  /\ validateID 255 ("task-" ++ "42") = Returned None.
Proof.
  assert (Hlen : (String.length "task-" + String.length "42" <= 255)%nat)
    by (simpl; lia).
  split; [reflexivity|]. split; [reflexivity|]. split; [exact Hlen|].
  exact (validateID_append 255 "task-" "42" eq_refl eq_refl Hlen).
Defined.

(** ** Sequences: environments, commands and containers *)

Lemma first_failure_incl {A} (check : A -> option Error) (xs ys : list A) :
  incl xs ys ->
  first_failure check ys = None ->
  first_failure check xs = None.
Proof.
  intros Hincl Hys. apply first_failure_None.
  apply first_failure_None in Hys.
  eapply incl_Forall; eassumption.
Qed.

Lemma first_failure_Some {A} (check : A -> option Error) (xs : list A)
    (e : Error) :
  first_failure check xs = Some e ->
  exists pre x post,
    xs = pre ++ x :: post
    /\ first_failure check pre = None
    /\ check x = Some e.
Proof.
  induction xs as [|x xs IH]; simpl; [discriminate|].
  destruct (check x) as [e'|] eqn:Hx.
  - intros H. injection H as ->.
    exists [], x, xs. repeat split. exact Hx.
  - intros H. destruct (IH H) as [pre [y [post [-> [Hpre Hy]]]]].
    exists (x :: pre), y, post. repeat split.
    + simpl. rewrite Hx. exact Hpre.
    + exact Hy.
Qed.

(** X3.  Validation of a sequence composes over concatenation: the result
    for [a ++ b] is the failure of [a] when [a] fails, and otherwise the
    result for [b].  This holds for the variables of an Environment, for the
    environment of a command and for the volumes of a container; in
    particular the empty sequence is accepted. *)
Theorem validation_of_concatenation :
  (forall a b : list Environment.Variable_.t,
     validateEnvironment (Environment.mk (a ++ b)) =
     match validateEnvironment (Environment.mk a) with
     | Returned None => validateEnvironment (Environment.mk b)
     | failure => failure
     end)
  /\ (forall a b : list Environment.Variable_.t,
        validateCommandInfo (mkCommandInfo (Environment.mk (a ++ b))) =
        match validateCommandInfo (mkCommandInfo (Environment.mk a)) with
        | Returned None => validateCommandInfo (mkCommandInfo (Environment.mk b))
        | failure => failure
        end)
  /\ (forall a b : list Volume.t,
        validateContainerInfo (mkContainerInfo (a ++ b)) =
        match validateContainerInfo (mkContainerInfo a) with
        | Returned None => validateContainerInfo (mkContainerInfo b)
        | failure => failure
        end)
  /\ validateEnvironment (Environment.mk []) = Returned None
  /\ validateContainerInfo (mkContainerInfo []) = Returned None.
Proof.
  assert (Henv : forall a b : list Environment.Variable_.t,
            validateEnvironment (Environment.mk (a ++ b)) =
            match validateEnvironment (Environment.mk a) with
            | Returned None => validateEnvironment (Environment.mk b)
            | failure => failure
            end).
  { intros a b. rewrite !validateEnvironment_refines.
    cbn [Environment.variables]. rewrite first_failure_app.
    destruct (first_failure check_Variable a); reflexivity. }
  split_conjunctions.
  - exact Henv.
  - intros a b. unfold validateCommandInfo. cbn [CommandInfo_environment].
    apply Henv.
  - intros a b. rewrite !validateContainerInfo_refines.
    cbn [volumes]. rewrite first_failure_app.
    destruct (first_failure _ a); reflexivity.
  - reflexivity.
  - reflexivity.
Qed.

(** X4.  Whether a sequence is accepted depends on which elements it has,
    not on their order or number: when every variable of an Environment
    occurs in an accepted Environment, it is accepted too, and likewise for
    the volumes of a container.  Reordering, dropping or repeating elements
    of an accepted sequence keeps it accepted. *)
Theorem accepted_sequences_are_order_free :
  (forall a b : list Environment.Variable_.t,
     incl a b ->
     validateEnvironment (Environment.mk b) = Returned None ->
     validateEnvironment (Environment.mk a) = Returned None)
  /\ (forall a b : list Environment.Variable_.t,
        Permutation a b ->
        (validateCommandInfo (mkCommandInfo (Environment.mk a)) = Returned None
         <-> validateCommandInfo (mkCommandInfo (Environment.mk b))
             = Returned None))
  /\ (forall a b : list Volume.t,
        incl a b ->
        validateContainerInfo (mkContainerInfo b) = Returned None ->
        validateContainerInfo (mkContainerInfo a) = Returned None)
  /\ (forall a b : list Volume.t,
        Permutation a b ->
        (validateContainerInfo (mkContainerInfo a) = Returned None
         <-> validateContainerInfo (mkContainerInfo b) = Returned None)).
Proof.
  assert (Henv : forall a b : list Environment.Variable_.t,
            incl a b ->
            validateEnvironment (Environment.mk b) = Returned None ->
            validateEnvironment (Environment.mk a) = Returned None).
  { intros a b Hincl. rewrite !validateEnvironment_refines.
    cbn [Environment.variables]. intros H. injection H as H.
    rewrite (first_failure_incl _ a b Hincl H). reflexivity. }
  assert (Hvol : forall a b : list Volume.t,
            incl a b ->
            validateContainerInfo (mkContainerInfo b) = Returned None ->
            validateContainerInfo (mkContainerInfo a) = Returned None).
  { intros a b Hincl. rewrite !validateContainerInfo_refines.
    cbn [volumes]. intros H. injection H as H.
    rewrite (first_failure_incl _ a b Hincl H). reflexivity. }
  split_conjunctions.
  - exact Henv.
  - intros a b Hperm. unfold validateCommandInfo.
    cbn [CommandInfo_environment]. split; apply Henv.
    + intros x Hx. apply (Permutation_in x (Permutation_sym Hperm) Hx).
    + intros x Hx. apply (Permutation_in x Hperm Hx).
  - exact Hvol.
  - intros a b Hperm. split; apply Hvol.
    + intros x Hx. apply (Permutation_in x (Permutation_sym Hperm) Hx).
    + intros x Hx. apply (Permutation_in x Hperm Hx).
Qed.

Lemma accepted_sequences_are_order_free_witness :
  incl [home_variable; home_variable]
       [Environment.Variable_.mk "TOKEN" Environment.Variable_.SECRET None
          (Some reference_secret); home_variable]
  /\ validateEnvironment (Environment.mk
       [Environment.Variable_.mk "TOKEN" Environment.Variable_.SECRET None
          (Some reference_secret); home_variable]) = Returned None
  /\ validateEnvironment (Environment.mk [home_variable; home_variable])
     = Returned None
  /\ Permutation [host_path_volume; Volume.mk "/img" None (Some "image") None]
                 [Volume.mk "/img" None (Some "image") None; host_path_volume]
  /\ (validateContainerInfo (mkContainerInfo
        [host_path_volume; Volume.mk "/img" None (Some "image") None])
      = Returned None
      <-> validateContainerInfo (mkContainerInfo
            [Volume.mk "/img" None (Some "image") None; host_path_volume])
          = Returned None).
Proof.
  assert (Hincl : incl [home_variable; home_variable]
            [Environment.Variable_.mk "TOKEN" Environment.Variable_.SECRET
               None (Some reference_secret); home_variable]).
  { intros x [<- | [<- | []]]; right; left; reflexivity. }
  assert (Hperm : Permutation
            [host_path_volume; Volume.mk "/img" None (Some "image") None]
            [Volume.mk "/img" None (Some "image") None; host_path_volume])
    by apply perm_swap.
  split; [exact Hincl|]. split; [reflexivity|].
  split; [exact (proj1 accepted_sequences_are_order_free _ _ Hincl eq_refl)|].
  split; [exact Hperm|].
  exact (proj2 (proj2 (proj2 accepted_sequences_are_order_free)) _ _ Hperm).
Defined.

(** ** What the errors of an Environment say *)

Lemma check_Variable_message (v : Environment.Variable_.t) (e : Error) :
  check_Variable v = Some e ->
  (Environment.Variable_.type v = Environment.Variable_.UNKNOWN
   /\ message e = "Environment variable of type 'UNKNOWN' is not allowed")
  \/ (Environment.Variable_.type v <> Environment.Variable_.UNKNOWN
      /\ exists rest : string,
           message e =
           ("Environment variable '" ++ Environment.Variable_.name v ++ "'"
            ++ rest)%string).
Proof.
  destruct v as [name ty value secret]. unfold check_Variable.
  cbn [Environment.Variable_.type Environment.Variable_.name].
  destruct ty as [| | |raw]; cbn [Variable_rules first_violated].
  - intros H. injection H as <-. left. split; reflexivity.
  - unfold violated_when. intros H. right. split; [discriminate|].
    destruct (negb _); [injection H as <-; eexists; reflexivity|].
    destruct (Environment.Variable_.has_secret _);
      [injection H as <-; eexists; reflexivity | discriminate].
  - unfold violated_when. intros H. right. split; [discriminate|].
    destruct (negb _); [injection H as <-; eexists; reflexivity|].
    destruct (Environment.Variable_.has_value _);
      [injection H as <-; eexists; reflexivity|].
    destruct (check_Secret _);
      [injection H as <-; eexists; reflexivity|].
    destruct (contains_char _ _);
      [injection H as <-; eexists; reflexivity | discriminate].
  - discriminate.
Qed.

(** X5.  A failure of [validateEnvironment] belongs to one variable: the
    Environment splits into accepted variables, then a variable that alone
    fails with that very error, then the rest.  Unless that variable is of
    type UNKNOWN, the message starts with "Environment variable '", the
    name of the variable and a quote; for type UNKNOWN the message is a
    fixed text that does not name the variable. *)
Theorem validateEnvironment_failure_names_variable
    (environment : Environment.t) (e : Error) :
  validateEnvironment environment = Returned (Some e) ->
  exists pre v post,
    Environment.variables environment = pre ++ v :: post
    /\ validateEnvironment (Environment.mk pre) = Returned None
    /\ validateEnvironment (Environment.mk [v]) = Returned (Some e)
    /\ ((Environment.Variable_.type v = Environment.Variable_.UNKNOWN
         /\ message e
            = "Environment variable of type 'UNKNOWN' is not allowed")
        \/ (Environment.Variable_.type v <> Environment.Variable_.UNKNOWN
            /\ exists rest : string,
                 message e =
                 ("Environment variable '" ++ Environment.Variable_.name v
                  ++ "'" ++ rest)%string)).
Proof.
  rewrite validateEnvironment_refines. intros H. injection H as H.
  destruct (first_failure_Some _ _ _ H) as [pre [v [post [Hsplit [Hpre Hv]]]]].
  exists pre, v, post. split_conjunctions.
  - exact Hsplit.
  - rewrite validateEnvironment_refines. cbn [Environment.variables].
    rewrite Hpre. reflexivity.
  - rewrite validateEnvironment_singleton, Hv. reflexivity.
  - apply check_Variable_message. exact Hv.
Qed.

Lemma validateEnvironment_failure_names_variable_witness :
  validateEnvironment (Environment.mk [home_variable; token_with_literal])
  = Returned (Some (mkError
      "Environment variable 'TOKEN' of type 'SECRET' must not have a value set"))
  /\ exists pre v post,
       [home_variable; token_with_literal] = pre ++ v :: post
       /\ validateEnvironment (Environment.mk pre) = Returned None
       /\ validateEnvironment (Environment.mk [v])
          = Returned (Some (mkError
              "Environment variable 'TOKEN' of type 'SECRET' must not have a value set"))
       /\ ((Environment.Variable_.type v = Environment.Variable_.UNKNOWN
            /\ "Environment variable 'TOKEN' of type 'SECRET' must not have a value set"
               = "Environment variable of type 'UNKNOWN' is not allowed")
           \/ (Environment.Variable_.type v <> Environment.Variable_.UNKNOWN
               /\ exists rest : string,
                    "Environment variable 'TOKEN' of type 'SECRET' must not have a value set"
                    = ("Environment variable '"
                       ++ Environment.Variable_.name v ++ "'" ++ rest)%string)).
Proof.
  split; [reflexivity|].
  exact (validateEnvironment_failure_names_variable
           (Environment.mk [home_variable; token_with_literal]) _ eq_refl).
Defined.

(** X6.  A SECRET variable without a literal value whose secret is rejected
    by [validateSecret] fails with the error of the secret, put after the
    name of the variable; this comes before the null-byte check, so it is
    the reported error also when the value of the secret holds a null
    byte. *)
Theorem validateEnvironment_wraps_secret_error
    (name : string) (secret : Secret.t) (e : Error) :
  validateSecret secret = Returned (Some e) ->
  validateEnvironment (Environment.mk
    [Environment.Variable_.mk name Environment.Variable_.SECRET None
       (Some secret)])
  = Returned (Some (mkError
      ("Environment variable '" ++ name ++
       "' specifies an invalid secret: " ++ message e))).
Proof.
  intros Hs. unfold validateEnvironment, validateEnvironment_body, switch.
  cbn [Environment.variables foreach Environment.Variable_.type
       Environment.Variable_.Type_eqb after_case run_items
       Environment.Variable_.has_secret Environment.Variable_.has_value
       Environment.Variable_.secret_field Environment.Variable_.value_field
       Environment.Variable_.secret Environment.Variable_.name
       isSome negb when seq getOrElse].
  rewrite Hs. reflexivity.
Qed.

Lemma validateEnvironment_wraps_secret_error_witness :
  validateSecret broken_secret
  = Returned (Some (mkError
      "Secret of type REFERENCE must have the 'reference' field set"))
  /\ contains_char Ascii.zero (Secret.data (Secret.value broken_secret)) = true
  /\ validateEnvironment (Environment.mk
       [Environment.Variable_.mk "TOKEN" Environment.Variable_.SECRET None
          (Some broken_secret)])
     = Returned (Some (mkError
         ("Environment variable '" ++ "TOKEN" ++
          "' specifies an invalid secret: " ++
          "Secret of type REFERENCE must have the 'reference' field set"))).
Proof.
  split; [reflexivity|]. split; [reflexivity|].
  exact (validateEnvironment_wraps_secret_error "TOKEN" broken_secret _
           eq_refl).
Defined.

(** ** Volumes: what is read and what is reported *)

Lemma check_Volume_shape (v : Volume.t) :
  check_Volume v =
  match shape_of v with
  | mkVolume_shape hp im src =>
      match hp, im, src with
      | true, false, None | false, true, None => None
      | false, false, Some (mkSource_shape ty dv h sp se) =>
          match ty with
          | Volume.Source.DOCKER_VOLUME =>
              violated_when (negb dv) (mkError
                "'source.docker_volume' is not set for DOCKER_VOLUME volume")
          | Volume.Source.HOST_PATH =>
              violated_when (negb h) (mkError
                "'source.host_path' is not set for HOST_PATH volume")
          | Volume.Source.SANDBOX_PATH =>
              violated_when (negb sp) (mkError
                "'source.sandbox_path' is not set for SANDBOX_PATH volume")
          | Volume.Source.SECRET =>
              violated_when (negb se) (mkError
                "'source.secret' is not set for SECRET volume")
          | _ => Some (mkError "'source.type' is unknown")
          end
      | _, _, _ =>
          Some (mkError
            "Only one of them should be set: 'host_path', 'image' and 'source'")
      end
  end.
Proof.
  destruct v as [cp [hp|] [im|] [[ty dv h sp se]|]];
    try reflexivity; destruct ty, dv, h, sp, se; reflexivity.
Qed.

(** X7.  [validateVolume] reads only which slots are populated, the
    discriminator of the source and which payloads of the source are
    present: two volumes that agree on these get the same result, whatever
    their container paths, host paths, images and payload contents. *)
Theorem validateVolume_reads_presence_only (v w : Volume.t) :
  shape_of v = shape_of w ->
  validateVolume v = validateVolume w.
Proof.
  intros H. rewrite !validateVolume_refines, !check_Volume_shape, H.
  reflexivity.
Qed.

Lemma validateVolume_reads_presence_only_witness :
  shape_of (Volume.mk "" (Some "") None None)
  = shape_of (Volume.mk "/mnt/data" (Some "/var/data") None None)
  /\ validateVolume (Volume.mk "" (Some "") None None)
     = validateVolume (Volume.mk "/mnt/data" (Some "/var/data") None None).
Proof.
  split; [reflexivity|].
  exact (validateVolume_reads_presence_only
           (Volume.mk "" (Some "") None None)
           (Volume.mk "/mnt/data" (Some "/var/data") None None) eq_refl).
Defined.

(** X8.  A volume whose source is of type SECRET is accepted as soon as the
    secret payload is present: the secret is not passed to
    [validateSecret], so a secret that [validateSecret] rejects is accepted
    inside a volume, and inside a container.  Payloads of the other kinds,
    present next to the announced one, are not an error either. *)
Theorem validateVolume_does_not_validate_secret :
  (forall container_path docker_volume host_path sandbox_path
          (secret : Secret.t),
     validateVolume
       (Volume.mk container_path None None
          (Some (Volume.Source.mk Volume.Source.SECRET
                   docker_volume host_path sandbox_path (Some secret))))
     = Returned None)
  /\ (exists e, validateSecret broken_secret = Returned (Some e))
  /\ validateContainerInfo (mkContainerInfo
       [Volume.mk "/run/secret" None None
          (Some (Volume.Source.mk Volume.Source.SECRET
                   None None None (Some broken_secret)))])
     = Returned None.
Proof.
  split_conjunctions.
  - intros container_path docker_volume host_path sandbox_path secret.
    destruct docker_volume, host_path, sandbox_path; reflexivity.
  - eexists. reflexivity.
  - reflexivity.
Qed.

Lemma check_Volume_message (v : Volume.t) (e : Error) :
  check_Volume v = Some e -> In (message e) Volume_error_messages.
Proof.
  rewrite check_Volume_shape. unfold Volume_error_messages.
  destruct (shape_of v) as [[|] [|] [[ty [|] [|] [|] [|]]|]];
    try destruct ty; cbn; intros H;
    try discriminate H; injection H as <-; cbn; tauto.
Qed.

(** X9.  The errors of the volume validators form a closed vocabulary:
    [validateVolume] fails only with one of six messages, and
    [validateContainerInfo] fails only with "Invalid volume: " followed by
    one of these six. *)
Theorem volume_errors_are_six :
  (forall (v : Volume.t) (e : Error),
     validateVolume v = Returned (Some e) ->
     In (message e) Volume_error_messages)
  /\ (forall (c : ContainerInfo) (e : Error),
        validateContainerInfo c = Returned (Some e) ->
        exists m, In m Volume_error_messages
                  /\ message e = ("Invalid volume: " ++ m)%string).
Proof.
  split.
  - intros v e. rewrite validateVolume_refines. intros H. injection H as H.
    apply (check_Volume_message v). exact H.
  - intros c e. rewrite validateContainerInfo_refines.
    intros H. injection H as H.
    destruct (first_failure_Some _ _ _ H) as [pre [v [post [_ [_ Hv]]]]].
    cbv beta in Hv. destruct (check_Volume v) as [e'|] eqn:Hcheck;
      [|discriminate].
    cbn in Hv. injection Hv as <-.
    exists (message e'). split; [|reflexivity].
    apply (check_Volume_message v). exact Hcheck.
Qed.

Lemma volume_errors_are_six_witness :
  validateVolume (empty_volume "/mnt/scratch") = Returned (Some only_one_error)
  /\ In (message only_one_error) Volume_error_messages
  /\ validateContainerInfo
       (mkContainerInfo [host_path_volume; empty_volume "/mnt/scratch"])
     = Returned (Some (mkError ("Invalid volume: " ++ message only_one_error)))
  /\ exists m, In m Volume_error_messages
               /\ message (mkError ("Invalid volume: " ++ message only_one_error))
                  = ("Invalid volume: " ++ m)%string.
Proof.
  split; [reflexivity|].
  split; [exact (proj1 volume_errors_are_six
                   (empty_volume "/mnt/scratch") only_one_error eq_refl)|].
  split; [reflexivity|].
  exact (proj2 volume_errors_are_six
           (mkContainerInfo [host_path_volume; empty_volume "/mnt/scratch"])
           _ eq_refl).
Defined.

(** ** The messages of the identifier validator *)

(** X10.  [validateID] checks the length before it quotes the identifier:
    an identifier longer than [NAME_MAX] gets a fixed message, so no error
    message echoes an over-long identifier, and every message is at most
    [NAME_MAX] plus the digits of [NAME_MAX] plus 39 characters long. *)
Theorem validateID_messages_are_bounded (NAME_MAX : nat) (id : string)
    (e : Error) :
  validateID NAME_MAX id = Returned (Some e) ->
  ((NAME_MAX < String.length id)%nat ->
   message e = ("ID must not be greater than " ++ stringify NAME_MAX
                ++ " characters")%string)
  /\ (String.length (message e)
      <= NAME_MAX + String.length (stringify NAME_MAX) + 39)%nat.
Proof.
  rewrite validateID_refines.
  unfold ID_rules, first_violated, violated_when.
  destruct (String.eqb_spec id "") as [->|Hne].
  { intros H. injection H as <-. simpl. split; lia. }
  destruct (Nat.ltb_spec NAME_MAX (String.length id)) as [Hlong|Hshort].
  { intros H. injection H as <-. split; [reflexivity|].
    cbn [message String.length String.append].
    rewrite !length_append. cbn [String.length]. lia. }
  destruct (String.eqb id "." || String.eqb id "..");
    [|destruct (any_of invalidCharacter id); [|discriminate]];
    intros H; injection H as <-; (split; [lia|]);
    cbn [message String.length String.append];
    rewrite !length_append; cbn [String.length]; lia.
Qed.

Lemma validateID_messages_are_bounded_witness :
  validateID 3 "a/b/c"
  = Returned (Some (mkError "ID must not be greater than 3 characters"))
  /\ (3 < String.length "a/b/c")%nat
  /\ (String.length "ID must not be greater than 3 characters"
      <= 3 + String.length (stringify 3) + 39)%nat.
Proof.
  assert (Hlong : (3 < String.length "a/b/c")%nat) by (simpl; lia).
  split; [reflexivity|]. split; [exact Hlong|].
  exact (proj2 (validateID_messages_are_bounded 3 "a/b/c" _ eq_refl)).
Defined.

(** ** Whole numbers of gpus *)

Section WholeGpus.
Import Corelib.Floats.PrimFloat.

(** Whole numbers from 0 to 20000 scale to whole numbers of thousandths. *)
Lemma whole_sweep :
  forallb (fun j => match fixed_point_3 (of_Z j) with
                    | Some n => (n =? 1000 * j)%Z
                    | None => false
                    end)
    (range 0 (Z.to_nat 20001)) = true.
Proof. vm_compute. reflexivity. Qed.

Variable Resource : Type.
Variable Resources_gpus : list Resource -> option float.

(** X11.  No whole number of gpus from 0 to 20000 is rejected: the product
    with 1000.0 is exact there, so the remainder is 0. *)
Theorem validateGpus_accepts_whole (resources : list Resource) (j : Z) :
  (0 <= j <= 20000)%Z ->
  Resources_gpus resources = Some (of_Z j) ->
  validateGpus Resource Resources_gpus resources = Returned None.
Proof.
  intros Hj Hd.
  pose proof (proj1 (forallb_forall _ _) whole_sweep j) as Hsweep.
  cbv beta in Hsweep.
  assert (Hin : In j (range 0 (Z.to_nat 20001))) by (apply In_range; lia).
  apply Hsweep in Hin.
  destruct (fixed_point_3 (of_Z j)) as [n|] eqn:Hn; [|discriminate].
  apply Z.eqb_eq in Hin. subst n.
  rewrite validateGpus_refines, Hd. cbn [getOrElse]. rewrite Hn.
  unfold fractional_remainder.
  replace (1000 * j)%Z with (j * 1000)%Z by lia.
  rewrite Z.quot_mul by lia.
  replace (j * 1000 - 1000 * j)%Z with 0%Z by lia.
  reflexivity.
Qed.
End WholeGpus.

Section WholeGpusWitness.
Import Corelib.Floats.PrimFloat.

Lemma validateGpus_accepts_whole_witness :
  (0 <= 4 <= 20000)%Z
  /\ sample_gpus [("cpus", 8%float); ("gpus", of_Z 4)] = Some (of_Z 4)
  /\ of_Z 4 = 4%float
  /\ validateGpus _ sample_gpus [("cpus", 8%float); ("gpus", of_Z 4)]
     = Returned None.
Proof.
  assert (Hj : (0 <= 4 <= 20000)%Z) by lia.
  split; [exact Hj|]. split; [reflexivity|]. split; [vm_compute; reflexivity|].
  exact (validateGpus_accepts_whole _ sample_gpus
           [("cpus", 8%float); ("gpus", of_Z 4)] 4%Z Hj eq_refl).
Defined.
End WholeGpusWitness.

(** ** Literal values against secret values *)

(** X12.  The null-byte rule covers secrets only.  A VALUE variable is
    accepted with any name and any literal value, whatever bytes they hold;
    the same bytes as the value of a VALUE secret in a SECRET variable are
    rejected as soon as one of them is a null byte. *)
Theorem null_bytes_are_checked_in_secrets_only :
  (forall name value : string,
     validateEnvironment (Environment.mk
       [Environment.Variable_.mk name Environment.Variable_.VALUE
          (Some value) None])
     = Returned None)
  /\ (forall name data : string,
        In Ascii.zero (list_ascii_of_string data) ->
        validateEnvironment (Environment.mk
          [Environment.Variable_.mk name Environment.Variable_.SECRET None
             (Some (value_secret data))])
        = Returned (Some (mkError
            ("Environment variable '" ++ name ++
             "' specifies a secret containing null bytes, " ++
             "which is not allowed in the environment")))).
Proof.
  split.
  - intros name value. reflexivity.
  - intros name data Hzero. apply contains_char_In in Hzero.
    unfold validateEnvironment, validateEnvironment_body, switch, value_secret.
    cbn [Environment.variables foreach Environment.Variable_.type
         Environment.Variable_.Type_eqb after_case run_items
         Environment.Variable_.has_secret Environment.Variable_.has_value
         Environment.Variable_.secret_field Environment.Variable_.value_field
         Environment.Variable_.secret Environment.Variable_.name
         isSome negb when seq getOrElse].
    change (validateSecret (Secret.mk Secret.VALUE None
                              (Some (Secret.mkValue data))))
      with (@Returned Option_Error None).
    cbn [call seq Secret.value Secret.value_field Secret.data getOrElse].
    rewrite Hzero. reflexivity.
Qed.

Lemma null_bytes_are_checked_in_secrets_only_witness :
  In Ascii.zero (list_ascii_of_string (String "a" (String Ascii.zero "b")))
  /\ validateEnvironment (Environment.mk
       [Environment.Variable_.mk "KEY" Environment.Variable_.VALUE
          (Some (String "a" (String Ascii.zero "b"))) None])
     = Returned None
  /\ validateEnvironment (Environment.mk
       [Environment.Variable_.mk "KEY" Environment.Variable_.SECRET None
          (Some (value_secret (String "a" (String Ascii.zero "b"))))])
     = Returned (Some (mkError
         ("Environment variable '" ++ "KEY" ++
          "' specifies a secret containing null bytes, " ++
          "which is not allowed in the environment"))).
Proof.
  assert (Hzero : In Ascii.zero
            (list_ascii_of_string (String "a" (String Ascii.zero "b"))))
    by (right; left; reflexivity).
  split; [exact Hzero|].
  split; [exact (proj1 null_bytes_are_checked_in_secrets_only "KEY" _)|].
  exact (proj2 null_bytes_are_checked_in_secrets_only "KEY" _ Hzero).
Defined.
